(** * The CallExpression partial evaluator of Prepack

    A shallow embedding of [src/partial-evaluators/CallExpression.js]: the
    default export (ECMA262 12.3.4.1 under partial information),
    [callBothFunctionsAndJoinTheirEffects] and [EvaluateCall].

    The JavaScript code mutates one [Realm] object and signals both
    language-level completions and host failures with [throw]; here a
    computation is a function from the realm to an [Outcome] that carries
    the realm reached on either exit, so that a [catch] or [finally] block
    continues from the state the [try] block left behind. *)

From Stdlib Require Import List String Bool.
Import ListNotations.
Local Open Scope string_scope.
Local Open Scope list_scope.
Set Warnings "-register-all".

(** ** Carriers

    Types the evaluator only passes around: Babel's AST nodes, the concrete
    value model, environment records and the pieces of an [Effects] record
    are defined in modules the evaluator imports; it never looks inside
    them. *)
Class Carriers : Type := {
  ConcreteValue : Type;
  ValueType : Type;
  ValueType_eq_dec : forall a b : ValueType, {a = b} + {a <> b};
  Reference : Type;
  EnvironmentRecord : Type;
  LexicalEnvironment : Type;
  BabelNodeExpression : Type;
  BabelNodeStatement : Type;
  BabelNodeSourceLocation : Type;
  Generator : Type;
  Bindings : Type;
  PropertyBindings : Type;
  CreatedObjects : Type;
  AmbientState : Type;
  HostError : Type;
}.

Section Model.

Context {C : Carriers}.

(** ** Data model *)

(** A value is concrete, or abstract with a [kind], a type and the argument
    values it was built from ([func.kind], [func.getType()], [func.args]). *)
Inductive Value : Type :=
| Concrete (c : ConcreteValue)
| AbstractValue (kind : option string) (type : ValueType) (args : list Value).

(** [AbruptCompletion] and its four subclasses. *)
Inductive Abrupt : Type :=
| ThrowCompletion (value : Value)
| ReturnCompletion (value : Value)
| BreakCompletion (target : option string)
| ContinueCompletion (target : option string).

(** [Completion] with the three families the evaluator tests with
    [instanceof], and [Effects] as built by [new Effects(...)]. *)
Inductive Completion : Type :=
| SimpleNormalCompletion (value : Value)
| AbruptCompletion (a : Abrupt)
| PossiblyNormalCompletion (value : Value) (captured : Effects)
with Effects : Type :=
| mkEffects (result : Completion) (generator : Generator)
            (modifiedBindings : Bindings)
            (modifiedProperties : PropertyBindings)
            (createdObjects : CreatedObjects).

Definition result (e : Effects) : Completion :=
  match e with mkEffects r _ _ _ _ => r end.
Definition generator (e : Effects) : Generator :=
  match e with mkEffects _ g _ _ _ => g end.
Definition modifiedBindings (e : Effects) : Bindings :=
  match e with mkEffects _ _ b _ _ => b end.
Definition modifiedProperties (e : Effects) : PropertyBindings :=
  match e with mkEffects _ _ _ p _ => p end.
Definition createdObjects (e : Effects) : CreatedObjects :=
  match e with mkEffects _ _ _ _ o => o end.

(** [Completion | Value], the result type of most evaluation steps. *)
Inductive CompletionOrValue : Type :=
| IsValue (v : Value)
| IsCompletion (c : Completion).

(** [Value | Reference], the type of [ref] after line 41. *)
Inductive ValueOrReference : Type :=
| AValue (v : Value)
| AReference (r : Reference).

(** [Completion | Value | Reference], what evaluating the callee yields. *)
Inductive CalleeResult : Type :=
| CalleeValue (v : Value)
| CalleeReference (r : Reference)
| CalleeCompletion (c : Completion).

(** The base of a reference as [Environment.GetBase] returns it. *)
Inductive ReferenceBase : Type :=
| BaseUndefined
| BaseValue (v : Value)
| BaseEnvironmentRecord (r : EnvironmentRecord).

(** A referenced name is a string, or a symbol or abstract value. *)
Inductive ReferencedName : Type :=
| NameString (name : string)
| NameValue (v : Value).

(** The call node: [ast.callee], [ast.arguments], [ast.loc]. *)
Record BabelNodeCallExpression : Type := mkCall {
  callee : BabelNodeExpression;
  arguments : list BabelNodeExpression;
  loc : option BabelNodeSourceLocation;
}.

(** [realm.intrinsics], as far as the evaluator reads it. *)
Record Intrinsics : Type := mkIntrinsics {
  intrinsics_undefined : Value;
  intrinsics_eval : Value;
}.

(** The realm: the two location fields and the intrinsics the evaluator
    touches directly, and everything else (heap, bindings, generator,
    trackers, saved completion) as [ambient]. *)
Record Realm : Type := mkRealm {
  currentLocation : option BabelNodeSourceLocation;
  nextContextLocation : option BabelNodeSourceLocation;
  intrinsics : Intrinsics;
  ambient : AmbientState;
}.

(** What a JavaScript [throw] carries: a [Completion] object, or any other
    exception (a failed [invariant], a [TypeError] of the engine, a
    [FatalError], ...). *)
Inductive JSError : Type :=
| InvariantViolation
| TypeError
| OtherError (e : HostError).

Inductive Thrown : Type :=
| ThrownCompletion (c : Completion)
| ThrownError (e : JSError).

(** ** Computations over the realm *)

Inductive Outcome (A : Type) : Type :=
| Returned (a : A) (realm : Realm)
| Threw (t : Thrown) (realm : Realm).
#[local] Arguments Returned {A} a realm.
#[local] Arguments Threw {A} t realm.

Definition Eval (A : Type) : Type := Realm -> Outcome A.

Definition ret {A} (a : A) : Eval A := fun realm => Returned a realm.

Definition bind {A B} (m : Eval A) (k : A -> Eval B) : Eval B :=
  fun realm =>
    match m realm with
    | Returned a realm' => k a realm'
    | Threw t realm' => Threw t realm'
    end.

Definition throw {A} (t : Thrown) : Eval A := fun realm => Threw t realm.

(** [invariant(cond)] of [src/invariant.js]. *)
Definition invariant (cond : bool) : Eval unit :=
  if cond then ret tt else throw (ThrownError InvariantViolation).

(** A pure helper that may fail an [invariant] of its own. *)
Definition liftPure {A} (r : Thrown + A) : Eval A :=
  match r with inl t => throw t | inr a => ret a end.

Definition finalState {A} (o : Outcome A) : Realm :=
  match o with Returned _ realm => realm | Threw _ realm => realm end.

(** [try { m } finally { f }]: [f] runs on either exit of [m]; an exception
    of [f] replaces the pending outcome. *)
Definition tryFinally {A} (m : Eval A) (f : Eval unit) : Eval A :=
  fun realm =>
    match m realm with
    | Returned a realm' =>
        match f realm' with
        | Returned _ realm'' => Returned a realm''
        | Threw t realm'' => Threw t realm''
        end
    | Threw t realm' =>
        match f realm' with
        | Returned _ realm'' => Threw t realm''
        | Threw t' realm'' => Threw t' realm''
        end
    end.

(** [try { return m } catch (err) { if (err instanceof Completion) return
    err; throw err; }], lines 227-233. *)
Definition catchCompletion (m : Eval CompletionOrValue) : Eval CompletionOrValue :=
  fun realm =>
    match m realm with
    | Threw (ThrownCompletion c) realm' => Returned (IsCompletion c) realm'
    | o => o
    end.

End Model.

Arguments Returned {C A} a realm.
Arguments Threw {C A} t realm.

Declare Scope eval_scope.
Delimit Scope eval_scope with eval.
Notation "x <- m ;; k" := (bind m (fun x => k))
  (at level 61, m at next level, right associativity) : eval_scope.
Notation "' pat <- m ;; k" := (bind m (fun x => match x with pat => k end))
  (at level 61, pat pattern, m at next level, right associativity) : eval_scope.
Notation "m ;; k" := (bind m (fun _ => k))
  (at level 61, right associativity) : eval_scope.

(** ** Collaborators

    The functions the evaluator imports from the rest of the repository
    ([realm.js], [environment.js], [methods/], [singletons.js], [values/])
    and from [@babel/types].  A function that receives the realm and may
    change it or throw is an [Eval]; one that only inspects its arguments is
    a plain function; [Join.unbundleNormalCompletion] and
    [shallowCloneWithoutEffects] receive no realm at all. *)
Class Collaborators {C : Carriers} : Type := {
  (* values/ *)
  typeOfConcrete : ConcreteValue -> ValueType;
  BooleanValue : ValueType;
  FunctionValue : ValueType;
  TopValue : ValueType;
  isTypeCompatibleWith : ValueType -> ValueType -> bool;
  createFromType : ValueType -> Eval Value;
  reportIntrospectionErrorAndThrow : Value -> Eval Value;
  (* environment.js and the Environment singleton *)
  partiallyEvaluateCompletion :
    LexicalEnvironment -> BabelNodeExpression -> bool ->
    Eval (CalleeResult * BabelNodeExpression * list BabelNodeStatement);
  partiallyEvaluateCompletionDeref :
    LexicalEnvironment -> BabelNodeExpression -> bool ->
    Eval (CompletionOrValue * BabelNodeExpression * list BabelNodeStatement);
  GetValue : ValueOrReference -> Eval Value;
  IsPropertyReference : Reference -> bool;
  GetReferencedName : Reference -> ReferencedName;
  GetBase : Reference -> ReferenceBase;
  WithBaseObject : EnvironmentRecord -> Value;
  (* methods/ *)
  GetThisValue : Reference -> Value;
  SameValue : Value -> Value -> bool;
  IsInTailPosition : Realm -> BabelNodeCallExpression -> bool;
  EvaluateDirectCallWithArgList :
    bool -> LexicalEnvironment -> ValueOrReference -> Value -> Value ->
    list Value -> bool -> Eval CompletionOrValue;
  (* the Functions singleton *)
  PerformEval : Value -> bool -> bool -> Eval CompletionOrValue;
  (* the Join singleton *)
  stopEffectCaptureJoinApplyAndReturnCompletion :
    Completion -> Completion -> Eval Completion;
  composeNormalCompletions :
    option Completion -> option Completion -> Value -> Eval CompletionOrValue;
  unbundleNormalCompletion :
    CompletionOrValue -> Thrown + (option Completion * CompletionOrValue);
  joinForkOrChoose : Value -> Effects -> Effects -> Eval Effects;
  (* completions.js *)
  shallowCloneWithoutEffects : Completion -> Completion;
  (* realm.js *)
  evaluateForEffects : Eval CompletionOrValue -> string -> Eval Effects;
  applyEffects : Effects -> Eval unit;
  captureEffects : Completion -> Eval unit;
  composeWithSavedCompletion : Completion -> Eval CompletionOrValue;
  (* @babel/types *)
  callExpression :
    BabelNodeExpression -> list BabelNodeExpression -> BabelNodeExpression;
}.

Section Evaluator.

Context {C : Carriers} {H : Collaborators}.
Local Open Scope eval_scope.

(** ** Small parts of the value and realm model *)

(** [value.getType()]. *)
Definition getType (v : Value) : ValueType :=
  match v with
  | Concrete c => typeOfConcrete c
  | AbstractValue _ type _ => type
  end.

(** [func instanceof AbstractValue]. *)
Definition isAbstractValue (v : Value) : bool :=
  match v with
  | Concrete _ => false
  | AbstractValue _ _ _ => true
  end.

(** [func.kind === "conditional"]. *)
Definition isConditional (kind : option string) : bool :=
  match kind with
  | Some k => String.eqb k "conditional"
  | None => false
  end.

(** [cond.getType() === BooleanValue]. *)
Definition sameType (a b : ValueType) : bool :=
  if ValueType_eq_dec a b then true else false.

(** Modelled from the spec: [Value.throwIfNotConcrete] (values/, not among
    the sources), "require func concrete": a concrete value is returned as
    it is; for an abstract one the failure is reported and raised by the
    collaborator. *)
Definition throwIfNotConcrete (v : Value) : Eval Value :=
  match v with
  | Concrete _ => ret v
  | AbstractValue _ _ _ => reportIntrospectionErrorAndThrow v
  end.

(** [c instanceof PossiblyNormalCompletion]. *)
Definition isPossiblyNormal (c : Completion) : bool :=
  match c with
  | PossiblyNormalCompletion _ _ => true
  | _ => false
  end.

(** The local variable [completion] of the default export, read where the
    code tests [completion instanceof PossiblyNormalCompletion]: the pending
    fork when there is one. *)
Definition pendingFork (completion : option CompletionOrValue) : option Completion :=
  match completion with
  | Some (IsCompletion (PossiblyNormalCompletion v e)) =>
      Some (PossiblyNormalCompletion v e)
  | _ => None
  end.

(** The realm after [realm.setNextExecutionContextLocation(l)]. *)
Definition withNextContextLocation (l : option BabelNodeSourceLocation) (realm : Realm) : Realm :=
  mkRealm (currentLocation realm) l (intrinsics realm) (ambient realm).

(** Modelled from the spec: [realm.setNextExecutionContextLocation]
    (realm.js, not among the sources), "records the call-site location on
    the context": stores the location and returns the one it replaces. *)
Definition setNextExecutionContextLocation
    (l : option BabelNodeSourceLocation) : Eval (option BabelNodeSourceLocation) :=
  fun realm => Returned (nextContextLocation realm) (withNextContextLocation l realm).

(** The realm after [realm.currentLocation = l]. *)
Definition withCurrentLocation (l : option BabelNodeSourceLocation) (realm : Realm) : Realm :=
  mkRealm l (nextContextLocation realm) (intrinsics realm) (ambient realm).

(** [realm.currentLocation = l]. *)
Definition setCurrentLocation (l : option BabelNodeSourceLocation) : Eval unit :=
  fun realm => Returned tt (withCurrentLocation l realm).

(** Reading a field of the realm. *)
Definition readRealm {A} (f : Realm -> A) : Eval A :=
  fun realm => Returned (f realm) realm.

(** ** EvaluateCall, lines 166-233: the callee is not an abstract function *)

(** Step 3, lines 170-176: [ref] is a reference, not a property reference,
    named "eval", and [func] is the realm's intrinsic [eval]. *)
Definition isDirectEval (ref : ValueOrReference) (func : Value) (realm : Realm) : bool :=
  match ref with
  | AReference r =>
      negb (IsPropertyReference r) &&
      match GetReferencedName r with
      | NameString name => String.eqb name "eval"
      | NameValue _ => false
      end &&
      SameValue func (intrinsics_eval (intrinsics realm))
  | AValue _ => false
  end.

(** Steps 4 and 5, lines 196-217: the this-value of the call; the
    [invariant] of line 208 fails when the base of a non-property reference
    is no environment record. *)
Definition resolveThisValue (ref : ValueOrReference) (realm : Realm) : Thrown + Value :=
  match ref with
  | AReference r =>
      if IsPropertyReference r then inr (GetThisValue r)
      else
        match GetBase r with
        | BaseEnvironmentRecord refEnv => inr (WithBaseObject refEnv)
        | _ => inl (ThrownError InvariantViolation)
        end
  | AValue _ => inr (intrinsics_undefined (intrinsics realm))
  end.

(** Steps 6 to 8, lines 219-233: the tail-call flag is computed, the
    call-site location stored in [realm.currentLocation], the function
    invoked, and a thrown completion turned into the returned one. *)
Definition invokeWithThis
    (ref : ValueOrReference) (func thisValue : Value)
    (ast : BabelNodeCallExpression) (argList : list Value)
    (strictCode : bool) (env : LexicalEnvironment) : Eval CompletionOrValue :=
  let thisCall := ast in
  tailCall <- readRealm (fun realm => IsInTailPosition realm thisCall) ;;
  catchCompletion
    (setCurrentLocation (loc ast) ;;
     EvaluateDirectCallWithArgList strictCode env ref func thisValue argList tailCall).

(** Lines 166-233 as a whole: the callee is made concrete, then the call is
    a direct eval or an ordinary invocation. *)
Definition EvaluateCallConcrete
    (ref : ValueOrReference) (func : Value) (ast : BabelNodeCallExpression)
    (argList : list Value) (strictCode : bool) (env : LexicalEnvironment)
    : Eval CompletionOrValue :=
  func <- throwIfNotConcrete func ;;
  directEval <- readRealm (isDirectEval ref func) ;;
  if directEval then
    match argList with
    | [] =>
        undefined <- readRealm (fun realm => intrinsics_undefined (intrinsics realm)) ;;
        ret (IsValue undefined)
    | evalText :: _ =>
        let strictCaller := strictCode in
        PerformEval evalText strictCaller true
    end
  else
    thisValue <- (this <- readRealm (resolveThisValue ref) ;; liftPure this) ;;
    invokeWithThis ref func thisValue ast argList strictCode env.

(** ** callBothFunctionsAndJoinTheirEffects, lines 95-145 *)

(** Lines 128-135: the completion of the join, composed with the saved
    completion when it is possibly normal. *)
Definition joinedCompletionOf (joinedEffects : Effects) : Eval CompletionOrValue :=
  if isPossiblyNormal (result joinedEffects)
  then composeWithSavedCompletion (result joinedEffects)
  else ret (IsCompletion (result joinedEffects)).

(** Lines 122-144: join the two captured effects, apply the join, and
    return its completion. *)
Definition joinAndApplyEffects
    (cond : Value) (r1 : Completion) (e1 : Effects) (r2 : Completion) (e2 : Effects)
    : Eval CompletionOrValue :=
  joinedEffects <-
    joinForkOrChoose cond
      (mkEffects r1 (generator e1) (modifiedBindings e1)
                 (modifiedProperties e1) (createdObjects e1))
      (mkEffects r2 (generator e2) (modifiedBindings e2)
                 (modifiedProperties e2) (createdObjects e2)) ;;
  joinedCompletion <- joinedCompletionOf joinedEffects ;;
  applyEffects joinedEffects ;;
  match joinedCompletion with
  | IsCompletion (SimpleNormalCompletion v) => ret (IsValue v)
  | IsCompletion (AbruptCompletion a) => ret (IsCompletion (AbruptCompletion a))
  | IsValue v => ret (IsValue v)
  | IsCompletion (PossiblyNormalCompletion _ _) =>
      throw (ThrownError InvariantViolation)
  end.

(** Lines 104-106: the three [invariant]s on the arguments of the
    conditional. *)
Definition conditionalArgumentsOk (cond func1 func2 : Value) : bool :=
  isAbstractValue cond && sameType (getType cond) BooleanValue &&
  isTypeCompatibleWith (getType func1) FunctionValue &&
  isTypeCompatibleWith (getType func2) FunctionValue.

(** The function itself, written over the function it calls for each arm,
    so that [EvaluateCall] below can be defined by recursion on the callee
    value. *)
Definition callBothFunctionsAndJoinTheirEffects_with
    (EvaluateCall :
       ValueOrReference -> Value -> BabelNodeCallExpression -> list Value ->
       bool -> LexicalEnvironment -> Eval CompletionOrValue)
    (funcs : list Value) (ast : BabelNodeCallExpression)
    (argVals : list Value) (strictCode : bool) (env : LexicalEnvironment)
    : Eval CompletionOrValue :=
  match funcs with
  | cond :: func1 :: func2 :: _ =>
      invariant (conditionalArgumentsOk cond func1 func2) ;;
      e1 <- evaluateForEffects
              (EvaluateCall (AValue func1) func1 ast argVals strictCode env)
              "callBothFunctionsAndJoinTheirEffects/1" ;;
      let r1 := shallowCloneWithoutEffects (result e1) in
      e2 <- evaluateForEffects
              (EvaluateCall (AValue func2) func2 ast argVals strictCode env)
              "callBothFunctionsAndJoinTheirEffects/2" ;;
      let r2 := shallowCloneWithoutEffects (result e2) in
      joinAndApplyEffects cond r1 e1 r2 e2
  | [cond; func1] =>
      (* func2 is undefined: [func2.getType()] is a TypeError *)
      invariant (isAbstractValue cond && sameType (getType cond) BooleanValue) ;;
      invariant (isTypeCompatibleWith (getType func1) FunctionValue) ;;
      throw (ThrownError TypeError)
  | [cond] =>
      invariant (isAbstractValue cond && sameType (getType cond) BooleanValue) ;;
      throw (ThrownError TypeError)
  | [] => throw (ThrownError InvariantViolation)
  end.

(** ** EvaluateCall, lines 147-234 *)
Fixpoint EvaluateCall
    (ref : ValueOrReference) (func : Value) (ast : BabelNodeCallExpression)
    (argList : list Value) (strictCode : bool) (env : LexicalEnvironment)
    {struct func} : Eval CompletionOrValue :=
  match func with
  | AbstractValue kind type args =>
      if isTypeCompatibleWith type FunctionValue then
        if isConditional kind then
          callBothFunctionsAndJoinTheirEffects_with EvaluateCall
            args ast argList strictCode env
        else
          v <- createFromType TopValue ;; ret (IsValue v)
      else EvaluateCallConcrete ref func ast argList strictCode env
  | Concrete _ => EvaluateCallConcrete ref func ast argList strictCode env
  end.

Definition callBothFunctionsAndJoinTheirEffects :=
  callBothFunctionsAndJoinTheirEffects_with EvaluateCall.

(** ** Definitions the statements below compare the code with *)

(** The invocation of a function value with [undefined] as this, the
    function value standing for its own reference (the reference passed in
    is not looked at). *)
Definition invokeWithUndefinedThis
    (ref : ValueOrReference) (func : Value) (ast : BabelNodeCallExpression)
    (argList : list Value) (strictCode : bool) (env : LexicalEnvironment)
    : Eval CompletionOrValue :=
  fun realm =>
    invokeWithThis (AValue func) func (intrinsics_undefined (intrinsics realm))
      ast argList strictCode env realm.

(** The statement that the abstract value returned for an abstract function
    callee has the declared return type of the call, [declared] being the
    way that type is read off the callee and the call node. *)
Definition returnsDeclaredType
    (declared : Value -> BabelNodeCallExpression -> ValueType) : Prop :=
  forall ref kind type args ast argList strictCode env realm,
    isTypeCompatibleWith type FunctionValue = true ->
    isConditional kind = false ->
    EvaluateCall ref (AbstractValue kind type args) ast argList strictCode env realm
    = (v <- createFromType (declared (AbstractValue kind type args) ast) ;;
       ret (IsValue v)) realm.


(** ** The default export, lines 27-93 *)

(** What the evaluator returns: [[Completion | Value, BabelNodeExpression,
    Array<BabelNodeStatement>]]. *)
Definition PartialResult : Type :=
  (CompletionOrValue * BabelNodeExpression * list BabelNodeStatement)%type.

(** The variables the argument loop updates. *)
Record LoopState : Type := mkLoop {
  io : list BabelNodeStatement;
  partialArgs : list BabelNodeExpression;
  argVals : list Value;
  completion : option CompletionOrValue;
}.

(** How the loop of lines 49-69 ends: with the [return] of line 58, or by
    running out of arguments. *)
Inductive LoopExit : Type :=
| LoopReturn (r : PartialResult)
| LoopDone (st : LoopState).

(** Lines 54-56 and 75-77: the abrupt completion, joined with the pending
    fork when there is one. *)
Definition joinAbrupt (completion : option CompletionOrValue) (abrupt : Completion)
    : Eval Completion :=
  match pendingFork completion with
  | Some fork => stopEffectCaptureJoinApplyAndReturnCompletion fork abrupt
  | None => ret abrupt
  end.

(** The loop [for (let arg of ast.arguments)], lines 49-69. *)
Fixpoint evaluateArguments
    (args : list BabelNodeExpression) (calleeAst : BabelNodeExpression)
    (strictCode : bool) (env : LexicalEnvironment) (st : LoopState)
    : Eval LoopExit :=
  match args with
  | [] => ret (LoopDone st)
  | arg :: rest =>
      '(argValue, argAst, argIO) <- partiallyEvaluateCompletionDeref env arg strictCode ;;
      let io' := io st ++ argIO in
      let partialArgs' := partialArgs st ++ [argAst] in
      match argValue with
      | IsCompletion (AbruptCompletion a) =>
          completion' <- joinAbrupt (completion st) (AbruptCompletion a) ;;
          let resultAst := callExpression calleeAst partialArgs' in
          ret (LoopReturn (IsCompletion completion', resultAst, io'))
      | IsCompletion (PossiblyNormalCompletion v e) =>
          let argVals' := argVals st ++ [v] in
          completion' <-
            match pendingFork (completion st) with
            | Some fork =>
                composeNormalCompletions (Some fork)
                  (Some (PossiblyNormalCompletion v e)) v
            | None => ret (IsCompletion (PossiblyNormalCompletion v e))
            end ;;
          evaluateArguments rest calleeAst strictCode env
            (mkLoop io' partialArgs' argVals' (Some completion'))
      | IsValue v =>
          evaluateArguments rest calleeAst strictCode env
            (mkLoop io' partialArgs' (argVals st ++ [v]) (completion st))
      | IsCompletion (SimpleNormalCompletion _) =>
          throw (ThrownError InvariantViolation)
      end
  end.

(** Lines 73-89, the body of the [try] block. *)
Definition callAndCompose
    (ref : ValueOrReference) (func : Value) (ast : BabelNodeCallExpression)
    (calleeAst : BabelNodeExpression) (strictCode : bool)
    (env : LexicalEnvironment) (st : LoopState) : Eval PartialResult :=
  callResult <- EvaluateCall ref func ast (argVals st) strictCode env ;;
  match callResult with
  | IsCompletion (AbruptCompletion a) =>
      completion' <- joinAbrupt (completion st) (AbruptCompletion a) ;;
      let resultAst := callExpression calleeAst (partialArgs st) in
      ret (IsCompletion completion', resultAst, io st)
  | _ =>
      '(callCompletion, callResult) <- liftPure (unbundleNormalCompletion callResult) ;;
      match callResult with
      | IsValue callValue =>
          match completion st with
          | None | Some (IsCompletion (PossiblyNormalCompletion _ _)) =>
              completion' <-
                composeNormalCompletions (pendingFork (completion st))
                  callCompletion callValue ;;
              match completion' with
              | IsCompletion (PossiblyNormalCompletion v e) =>
                  captureEffects (PossiblyNormalCompletion v e)
              | _ => ret tt
              end ;;
              ret (completion', callExpression calleeAst (partialArgs st), io st)
          | _ => throw (ThrownError InvariantViolation)
          end
      | IsCompletion _ => throw (ThrownError InvariantViolation)
      end
  end.

(** Lines 71-92: the call-site location is recorded, the call made, and
    the previous location put back by the [finally] block. *)
Definition callWithLocation
    (ref : ValueOrReference) (func : Value) (ast : BabelNodeCallExpression)
    (calleeAst : BabelNodeExpression) (strictCode : bool)
    (env : LexicalEnvironment) (st : LoopState) : Eval PartialResult :=
  previousLoc <- setNextExecutionContextLocation (loc ast) ;;
  tryFinally
    (callAndCompose ref func ast calleeAst strictCode env st)
    (setNextExecutionContextLocation previousLoc ;; ret tt).

(** Lines 36-41: a possibly normal completion of the callee is kept as the
    pending [completion] and its value taken for [ref]; the [invariant] of
    line 41 refuses any other completion. *)
Definition splitCallee (ref : CalleeResult)
    : Thrown + (option CompletionOrValue * ValueOrReference) :=
  match ref with
  | CalleeCompletion (PossiblyNormalCompletion v e) =>
      inr (Some (IsCompletion (PossiblyNormalCompletion v e)), AValue v)
  | CalleeValue v => inr (None, AValue v)
  | CalleeReference r => inr (None, AReference r)
  | CalleeCompletion _ => inl (ThrownError InvariantViolation)
  end.

(** The exported partial evaluator. *)
Definition CallExpression_default
    (ast : BabelNodeCallExpression) (strictCode : bool) (env : LexicalEnvironment)
    : Eval PartialResult :=
  (* 1. Let ref be the result of evaluating MemberExpression. *)
  '(ref, calleeAst, calleeIO) <- partiallyEvaluateCompletion env (callee ast) strictCode ;;
  match ref with
  | CalleeCompletion (AbruptCompletion a) =>
      ret (IsCompletion (AbruptCompletion a), calleeAst, calleeIO)
  | _ =>
      '(completion, ref) <- liftPure (splitCallee ref) ;;
      (* 2. Let func be ? GetValue(ref). *)
      func <- GetValue ref ;;
      exit <- evaluateArguments (arguments ast) calleeAst strictCode env
                (mkLoop calleeIO [] [] completion) ;;
      match exit with
      | LoopReturn r => ret r
      | LoopDone st => callWithLocation ref func ast calleeAst strictCode env st
      end
  end.

(** ** Assumptions on the collaborators, and ways of saying "concrete" *)

(** The arguments are evaluated one after the other, each to a plain value,
    with its own node as the residual node and no residual statement. *)
Inductive argumentsFold (strictCode : bool) (env : LexicalEnvironment)
    : list BabelNodeExpression -> Realm -> list Value -> Realm -> Prop :=
| fold_nil realm : argumentsFold strictCode env [] realm [] realm
| fold_cons arg rest realm v realm' vs realm'' :
    partiallyEvaluateCompletionDeref env arg strictCode realm
    = Returned (IsValue v, arg, []) realm' ->
    argumentsFold strictCode env rest realm' vs realm'' ->
    argumentsFold strictCode env (arg :: rest) realm (v :: vs) realm''.

(** Modelled from the spec: [Join.unbundleNormalCompletion] and
    [Join.composeNormalCompletions] (the Join singleton, not among the
    sources) where no fork is open.  "unbundle ... splits a composed
    completion into the part contributed by a still-open prior fork and the
    freshly produced value": a plain value has no such part.
    "sequentialCompose ... if no prior fork, returns next directly": with no
    fork on either side the composition is the result value, and the realm
    is left alone. *)
Definition join_passes_plain_values : Prop :=
  (forall v, unbundleNormalCompletion (IsValue v) = inr (None, IsValue v))
  /\ (forall v realm,
        composeNormalCompletions None None v realm = Returned (IsValue v) realm).

(** A computation that ends, on either exit, with the next-context location
    it started with. *)
Definition keepsNextContextLocation {A} (m : Eval A) : Prop :=
  forall realm,
    nextContextLocation (finalState (m realm)) = nextContextLocation realm.

(** Modelled from the spec: the collaborators the evaluator runs before it
    records the call site (environment.js and the Join singleton, not among
    the sources), "access is scoped (save-on-entry,
    restore-on-every-exit-path)": each of them ends, on either exit, with
    the next-context location it started with. *)
Definition steps_before_call_keep_location : Prop :=
  (forall env e strictCode,
      keepsNextContextLocation (partiallyEvaluateCompletion env e strictCode))
  /\ (forall env e strictCode,
        keepsNextContextLocation (partiallyEvaluateCompletionDeref env e strictCode))
  /\ (forall ref, keepsNextContextLocation (GetValue ref))
  /\ (forall fork abrupt,
        keepsNextContextLocation
          (stopEffectCaptureJoinApplyAndReturnCompletion fork abrupt))
  /\ (forall left right v,
        keepsNextContextLocation (composeNormalCompletions left right v)).

End Evaluator.

(** * A small realm

    One instance of the carriers and collaborators, small enough to run:
    numbers and a few named functions, identifier and member references, a
    log of the calls made as the only ambient state, and effect capture that
    rolls the log back and hands the new entries over as the captured
    effects.  The general statements below are tried on it. *)
Module Demo.

Inductive DemoConcrete : Type :=
| DUndefined
| DNumber (n : nat)
| DString (s : string)
| DFunction (name : string)
| DObject (id : nat).

Inductive DemoType : Type :=
| TyValue | TyUndefined | TyNumber | TyString | TyBoolean | TyFunction | TyObject.

Definition DemoType_eq_dec (a b : DemoType) : {a = b} + {a <> b}.
Proof. decide equality. Defined.

(** An environment record: declarative, with its bindings, or the object
    record of a [with] statement. *)
Inductive DemoRecord : Type :=
| DeclarativeRecord (bindings : list (string * DemoConcrete))
| ObjectRecord (bindingObject : nat).

Inductive DemoReference : Type :=
| IdentifierReference (record : DemoRecord) (name : string)
| PropertyReference (base : nat) (name : string).

(** Expressions: [x], [42], [o.p] (with [null.p] for no object), and
    calls. *)
Inductive DemoExpression : Type :=
| Identifier (name : string)
| NumericLiteral (n : nat)
| MemberExpression (object : option nat) (property : string)
| Call (callee : DemoExpression) (args : list DemoExpression).

Definition demoCarriers : Carriers := {|
  ConcreteValue := DemoConcrete;
  ValueType := DemoType;
  ValueType_eq_dec := DemoType_eq_dec;
  Reference := DemoReference;
  EnvironmentRecord := DemoRecord;
  LexicalEnvironment := list (string * DemoConcrete);
  BabelNodeExpression := DemoExpression;
  BabelNodeStatement := DemoExpression;
  BabelNodeSourceLocation := nat;
  Generator := list string;
  Bindings := unit;
  PropertyBindings := unit;
  CreatedObjects := unit;
  AmbientState := list string;
  HostError := string;
|}.
#[local] Existing Instance demoCarriers.
Local Open Scope eval_scope.

Definition concrete_eqb (a b : DemoConcrete) : bool :=
  match a, b with
  | DUndefined, DUndefined => true
  | DNumber n, DNumber m => Nat.eqb n m
  | DString s, DString t => String.eqb s t
  | DFunction f, DFunction g => String.eqb f g
  | DObject i, DObject j => Nat.eqb i j
  | _, _ => false
  end.

Definition demoTypeOf (c : DemoConcrete) : DemoType :=
  match c with
  | DUndefined => TyUndefined
  | DNumber _ => TyNumber
  | DString _ => TyString
  | DFunction _ => TyFunction
  | DObject _ => TyObject
  end.

Definition demoCompatible (a b : DemoType) : bool :=
  match b with
  | TyValue => true
  | _ => if DemoType_eq_dec a b then true else false
  end.

Definition number (n : nat) : Value := Concrete (DNumber n).
Definition function (name : string) : Value := Concrete (DFunction name).
Definition theCondition : Value := AbstractValue None TyBoolean [].

(** The names every environment knows: three functions, the intrinsic
    [eval], a function known up to a condition, and one from the
    environment model. *)
Definition globalValue (name : string) : option Value :=
  if String.eqb name "inc" then Some (function "inc")
  else if String.eqb name "dec" then Some (function "dec")
  else if String.eqb name "fail" then Some (function "fail")
  else if String.eqb name "self" then Some (function "self")
  else if String.eqb name "eval" then Some (function "eval")
  else if String.eqb name "pick" then
    Some (AbstractValue (Some "conditional") TyFunction
            [theCondition; function "inc"; function "dec"])
  else if String.eqb name "model" then Some (AbstractValue None TyFunction [])
  else None.

Fixpoint lookup (bindings : list (string * DemoConcrete)) (name : string)
    : option Value :=
  match bindings with
  | [] => globalValue name
  | (x, c) :: rest => if String.eqb x name then Some (Concrete c) else lookup rest name
  end.

Definition referenceError : Abrupt := ThrowCompletion (Concrete (DString "ReferenceError")).
Definition typeError : Abrupt := ThrowCompletion (Concrete (DString "TypeError")).

Definition demoGetValue (ref : ValueOrReference) : Eval Value :=
  match ref with
  | AValue v => ret v
  | AReference (IdentifierReference (DeclarativeRecord bindings) name) =>
      match lookup bindings name with
      | Some v => ret v
      | None => throw (ThrownCompletion (AbruptCompletion referenceError))
      end
  | AReference (IdentifierReference (ObjectRecord _) name)
  | AReference (PropertyReference _ name) =>
      match globalValue name with
      | Some v => ret v
      | None => ret (Concrete DUndefined)
      end
  end.

Definition demoEvaluateCallee (env : list (string * DemoConcrete))
    (node : DemoExpression) (strictCode : bool)
    : Eval (CalleeResult * DemoExpression * list DemoExpression) :=
  match node with
  | Identifier name =>
      ret (CalleeReference (IdentifierReference (DeclarativeRecord env) name), node, [])
  | NumericLiteral n => ret (CalleeValue (number n), node, [])
  | MemberExpression (Some object) property =>
      ret (CalleeReference (PropertyReference object property), node, [])
  | MemberExpression None _ =>
      ret (CalleeCompletion (AbruptCompletion typeError), node, [])
  | Call _ _ => ret (CalleeValue (AbstractValue None TyValue []), node, [node])
  end.

Definition demoEvaluateDeref (env : list (string * DemoConcrete))
    (node : DemoExpression) (strictCode : bool)
    : Eval (CompletionOrValue * DemoExpression * list DemoExpression) :=
  match node with
  | Identifier name =>
      match lookup env name with
      | Some v => ret (IsValue v, node, [])
      | None => ret (IsCompletion (AbruptCompletion referenceError), node, [])
      end
  | NumericLiteral n => ret (IsValue (number n), node, [])
  | MemberExpression (Some _) _ => ret (IsValue (Concrete DUndefined), node, [])
  | MemberExpression None _ =>
      ret (IsCompletion (AbruptCompletion typeError), node, [])
  | Call _ _ => ret (IsValue (AbstractValue None TyValue []), node, [node])
  end.

(** A call is logged in the ambient state before the function runs. *)
Definition logCall (name : string) : Eval unit :=
  fun realm =>
    Returned tt
      (mkRealm (currentLocation realm) (nextContextLocation realm)
               (intrinsics realm) (name :: ambient realm)).

Definition firstArgument (argList : list Value) : Value :=
  match argList with
  | v :: _ => v
  | [] => Concrete DUndefined
  end.

(** The functions: [inc] and [dec] on numbers, [self] returning its
    this-value, [fail] throwing its argument, [crash] failing in the host;
    anything else is not callable. *)
Definition demoInvoke (strictCode : bool) (env : list (string * DemoConcrete))
    (ref : ValueOrReference) (func thisValue : Value) (argList : list Value)
    (tailCall : bool) : Eval CompletionOrValue :=
  match func with
  | Concrete (DFunction name) =>
      logCall name ;;
      if String.eqb name "inc" then
        match firstArgument argList with
        | Concrete (DNumber n) => ret (IsValue (number (S n)))
        | _ => ret (IsValue (Concrete DUndefined))
        end
      else if String.eqb name "dec" then
        match firstArgument argList with
        | Concrete (DNumber n) => ret (IsValue (number (pred n)))
        | _ => ret (IsValue (Concrete DUndefined))
        end
      else if String.eqb name "self" then ret (IsValue thisValue)
      else if String.eqb name "fail" then
        throw (ThrownCompletion (AbruptCompletion (ThrowCompletion (firstArgument argList))))
      else if String.eqb name "crash" then
        throw (ThrownError (OtherError "FatalError"))
      else ret (IsValue (Concrete DUndefined))
  | _ => throw (ThrownCompletion (AbruptCompletion typeError))
  end.

(** The entries a run added to the log. *)
Definition newEntries (before after : list string) : list string :=
  firstn (List.length after - List.length before) after.

Definition asCompletion (r : CompletionOrValue) : Completion :=
  match r with
  | IsValue v => SimpleNormalCompletion v
  | IsCompletion c => c
  end.

(** Effect capture: the computation runs, what it added to the log becomes
    the captured effects, and the realm is put back. *)
Definition demoEvaluateForEffects (f : Eval CompletionOrValue) (name : string)
    : Eval Effects :=
  fun realm =>
    match f realm with
    | Returned r realm' =>
        Returned
          (mkEffects (asCompletion r) (newEntries (ambient realm) (ambient realm')) tt tt tt)
          realm
    | Threw (ThrownCompletion c) realm' =>
        Returned
          (mkEffects c (newEntries (ambient realm) (ambient realm')) tt tt tt)
          realm
    | Threw t _ => Threw t realm
    end.

Definition demoApplyEffects (e : Effects) : Eval unit :=
  fun realm =>
    Returned tt
      (mkRealm (currentLocation realm) (nextContextLocation realm)
               (intrinsics realm) (generator e ++ ambient realm)).

(** The join: two normal results become a conditional value and both logs
    are kept; when one arm is abrupt the join is possibly normal and keeps
    the log of the normal arm alone. *)
Definition demoJoin (cond : Value) (e1 e2 : Effects) : Eval Effects :=
  match result e1, result e2 with
  | SimpleNormalCompletion v1, SimpleNormalCompletion v2 =>
      ret (mkEffects
             (SimpleNormalCompletion
                (AbstractValue (Some "conditional") TyValue [cond; v1; v2]))
             (generator e1 ++ generator e2) tt tt tt)
  | SimpleNormalCompletion v1, AbruptCompletion _ =>
      ret (mkEffects (PossiblyNormalCompletion v1 e1) (generator e1) tt tt tt)
  | AbruptCompletion _, SimpleNormalCompletion v2 =>
      ret (mkEffects (PossiblyNormalCompletion v2 e2) (generator e2) tt tt tt)
  | AbruptCompletion a, _ =>
      ret (mkEffects (AbruptCompletion a) [] tt tt tt)
  | _, _ => throw (ThrownError InvariantViolation)
  end.

Definition completionValue (c : Completion) : Value :=
  match c with
  | SimpleNormalCompletion v | PossiblyNormalCompletion v _ => v
  | AbruptCompletion _ => Concrete DUndefined
  end.

Definition demoUnbundle (r : CompletionOrValue)
    : Thrown + (option Completion * CompletionOrValue) :=
  match r with
  | IsValue v => inr (None, IsValue v)
  | IsCompletion (PossiblyNormalCompletion v e) =>
      inr (Some (PossiblyNormalCompletion v e), IsValue v)
  | IsCompletion _ => inl (ThrownError InvariantViolation)
  end.

Definition demoCompose (left right : option Completion) (v : Value)
    : Eval CompletionOrValue :=
  match left, right with
  | None, None => ret (IsValue v)
  | Some (PossiblyNormalCompletion _ e), _
  | None, Some (PossiblyNormalCompletion _ e) =>
      ret (IsCompletion (PossiblyNormalCompletion v e))
  | _, _ => throw (ThrownError InvariantViolation)
  end.

Definition demoSameValue (a b : Value) : bool :=
  match a, b with
  | Concrete x, Concrete y => concrete_eqb x y
  | _, _ => false
  end.

Definition demoCollaborators : Collaborators := {|
  typeOfConcrete := demoTypeOf;
  BooleanValue := TyBoolean;
  FunctionValue := TyFunction;
  TopValue := TyValue;
  isTypeCompatibleWith := demoCompatible;
  createFromType := fun type => ret (AbstractValue None type []);
  reportIntrospectionErrorAndThrow :=
    fun _ => throw (ThrownError (OtherError "FatalError"));
  partiallyEvaluateCompletion := demoEvaluateCallee;
  partiallyEvaluateCompletionDeref := demoEvaluateDeref;
  GetValue := demoGetValue;
  IsPropertyReference :=
    fun r => match r with PropertyReference _ _ => true | _ => false end;
  GetReferencedName :=
    fun r => match r with
             | IdentifierReference _ name | PropertyReference _ name => NameString name
             end;
  GetBase :=
    fun r => match r with
             | IdentifierReference record _ => BaseEnvironmentRecord record
             | PropertyReference base _ => BaseValue (Concrete (DObject base))
             end;
  WithBaseObject :=
    fun record => match record with
                  | DeclarativeRecord _ => Concrete DUndefined
                  | ObjectRecord object => Concrete (DObject object)
                  end;
  GetThisValue :=
    fun r => match r with
             | PropertyReference base _ => Concrete (DObject base)
             | IdentifierReference _ _ => Concrete DUndefined
             end;
  SameValue := demoSameValue;
  IsInTailPosition := fun _ _ => false;
  EvaluateDirectCallWithArgList := demoInvoke;
  PerformEval :=
    fun evalText _ _ =>
      match evalText with
      | Concrete (DString _) => ret (IsValue (Concrete DUndefined))
      | _ => ret (IsValue evalText)
      end;
  stopEffectCaptureJoinApplyAndReturnCompletion := fun _ abrupt => ret abrupt;
  composeNormalCompletions := demoCompose;
  unbundleNormalCompletion := demoUnbundle;
  joinForkOrChoose := demoJoin;
  shallowCloneWithoutEffects := fun c => c;
  evaluateForEffects := demoEvaluateForEffects;
  applyEffects := demoApplyEffects;
  captureEffects := fun _ => ret tt;
  composeWithSavedCompletion := fun c => ret (IsValue (completionValue c));
  callExpression := Call;
|}.

(** The realm the examples start from: no location recorded, nothing
    logged. *)
Definition startRealm : Realm :=
  mkRealm None None
    (mkIntrinsics (Concrete DUndefined) (function "eval")) [].

(** A call node at line 7. *)
Definition callOf (calleeNode : DemoExpression) (args : list DemoExpression)
    : BabelNodeCallExpression :=
  mkCall calleeNode args (Some 7).

(** The realm with the given current location and call log. *)
Definition realmWith (current : option nat) (log : list string) : Realm :=
  mkRealm current None (mkIntrinsics (Concrete DUndefined) (function "eval")) log.

End Demo.

(** * Variants of the small realm

    The small realm with some of its collaborators replaced, for the
    behaviours its own collaborators never show: an evaluation that wraps
    its value in a completion object, a [PerformEval] that rejects text, and
    a [composeWithSavedCompletion] that hands the possibly normal completion
    back. *)
Module Variants.

Import Demo.
#[local] Existing Instance demoCarriers.
Local Open Scope eval_scope.

Definition demoWith
    (evaluateCallee :
       list (string * DemoConcrete) -> DemoExpression -> bool ->
       Eval (CalleeResult * DemoExpression * list DemoExpression))
    (evaluateDeref :
       list (string * DemoConcrete) -> DemoExpression -> bool ->
       Eval (CompletionOrValue * DemoExpression * list DemoExpression))
    (performEval : Value -> bool -> bool -> Eval CompletionOrValue)
    (composeSaved : Completion -> Eval CompletionOrValue)
    : Collaborators := {|
  typeOfConcrete := @typeOfConcrete _ demoCollaborators;
  BooleanValue := @BooleanValue _ demoCollaborators;
  FunctionValue := @FunctionValue _ demoCollaborators;
  TopValue := @TopValue _ demoCollaborators;
  isTypeCompatibleWith := @isTypeCompatibleWith _ demoCollaborators;
  createFromType := @createFromType _ demoCollaborators;
  reportIntrospectionErrorAndThrow :=
    @reportIntrospectionErrorAndThrow _ demoCollaborators;
  partiallyEvaluateCompletion := evaluateCallee;
  partiallyEvaluateCompletionDeref := evaluateDeref;
  GetValue := @GetValue _ demoCollaborators;
  IsPropertyReference := @IsPropertyReference _ demoCollaborators;
  GetReferencedName := @GetReferencedName _ demoCollaborators;
  GetBase := @GetBase _ demoCollaborators;
  WithBaseObject := @WithBaseObject _ demoCollaborators;
  GetThisValue := @GetThisValue _ demoCollaborators;
  SameValue := @SameValue _ demoCollaborators;
  IsInTailPosition := @IsInTailPosition _ demoCollaborators;
  EvaluateDirectCallWithArgList := @EvaluateDirectCallWithArgList _ demoCollaborators;
  PerformEval := performEval;
  stopEffectCaptureJoinApplyAndReturnCompletion :=
    @stopEffectCaptureJoinApplyAndReturnCompletion _ demoCollaborators;
  composeNormalCompletions := @composeNormalCompletions _ demoCollaborators;
  unbundleNormalCompletion := @unbundleNormalCompletion _ demoCollaborators;
  joinForkOrChoose := @joinForkOrChoose _ demoCollaborators;
  shallowCloneWithoutEffects := @shallowCloneWithoutEffects _ demoCollaborators;
  evaluateForEffects := @evaluateForEffects _ demoCollaborators;
  applyEffects := @applyEffects _ demoCollaborators;
  captureEffects := @captureEffects _ demoCollaborators;
  composeWithSavedCompletion := composeSaved;
  callExpression := @callExpression _ demoCollaborators;
|}.

Definition syntaxError : Abrupt := ThrowCompletion (Concrete (DString "SyntaxError")).

(** [PerformEval] that throws a SyntaxError for any text. *)
Definition rejectingEval (evalText : Value) (strictCaller direct : bool)
    : Eval CompletionOrValue :=
  match evalText with
  | Concrete (DString _) => throw (ThrownCompletion (AbruptCompletion syntaxError))
  | _ => ret (IsValue evalText)
  end.

Definition rejectingCollaborators : Collaborators :=
  demoWith demoEvaluateCallee demoEvaluateDeref rejectingEval
    (@composeWithSavedCompletion _ demoCollaborators).

(** [composeWithSavedCompletion] that returns the completion it is given. *)
Definition forkKeepingCollaborators : Collaborators :=
  demoWith demoEvaluateCallee demoEvaluateDeref (@PerformEval _ demoCollaborators)
    (fun c => ret (IsCompletion c)).

(** Evaluations that wrap the value of a numeric literal in a
    [SimpleNormalCompletion]. *)
Definition wrappingCallee (env : list (string * DemoConcrete))
    (node : DemoExpression) (strictCode : bool)
    : Eval (CalleeResult * DemoExpression * list DemoExpression) :=
  match node with
  | NumericLiteral n =>
      ret (CalleeCompletion (SimpleNormalCompletion (number n)), node, [])
  | _ => demoEvaluateCallee env node strictCode
  end.

Definition wrappingDeref (env : list (string * DemoConcrete))
    (node : DemoExpression) (strictCode : bool)
    : Eval (CompletionOrValue * DemoExpression * list DemoExpression) :=
  match node with
  | NumericLiteral n =>
      ret (IsCompletion (SimpleNormalCompletion (number n)), node, [])
  | _ => demoEvaluateDeref env node strictCode
  end.

Definition wrappingCollaborators : Collaborators :=
  demoWith wrappingCallee wrappingDeref (@PerformEval _ demoCollaborators)
    (@composeWithSavedCompletion _ demoCollaborators).



End Variants.

(** * Arguments that evaluate to plain values *)

Section PlainArguments.

Context {C : Carriers} {H : Collaborators}.

(** The arguments are evaluated one after the other, each to a plain value
    with a residual node and residual statements of its own. *)
Inductive argumentsPlain (strictCode : bool) (env : LexicalEnvironment)
    : list BabelNodeExpression -> Realm ->
      list (Value * BabelNodeExpression * list BabelNodeStatement) -> Realm -> Prop :=
| plain_nil realm : argumentsPlain strictCode env [] realm [] realm
| plain_cons arg rest realm v argAst argIO realm' results realm'' :
    partiallyEvaluateCompletionDeref env arg strictCode realm
    = Returned (IsValue v, argAst, argIO) realm' ->
    argumentsPlain strictCode env rest realm' results realm'' ->
    argumentsPlain strictCode env (arg :: rest) realm
      ((v, argAst, argIO) :: results) realm''.

Definition valuesOf (results : list (Value * BabelNodeExpression * list BabelNodeStatement))
    : list Value :=
  map (fun r => fst (fst r)) results.

Definition nodesOf (results : list (Value * BabelNodeExpression * list BabelNodeStatement))
    : list BabelNodeExpression :=
  map (fun r => snd (fst r)) results.

Definition statementsOf (results : list (Value * BabelNodeExpression * list BabelNodeStatement))
    : list BabelNodeStatement :=
  List.concat (map (fun r => snd r) results).

End PlainArguments.

(** * Properties *)

Section Properties.

Context {C : Carriers} {H : Collaborators}.
Local Open Scope eval_scope.

(** ** Running a computation step by step *)

Lemma bind_returned {A B} (m : Eval A) (k : A -> Eval B) realm a realm' :
  m realm = Returned a realm' -> bind m k realm = k a realm'.
Proof. unfold bind. intros ->. reflexivity. Qed.

Lemma bind_threw {A B} (m : Eval A) (k : A -> Eval B) realm t realm' :
  m realm = Threw t realm' -> bind m k realm = Threw t realm'.
Proof. unfold bind. intros ->. reflexivity. Qed.

(** On a concrete callee [EvaluateCall] is its lines 166-233. *)
Lemma EvaluateCall_Concrete ref c ast argList strictCode env :
  EvaluateCall ref (Concrete c) ast argList strictCode env
  = EvaluateCallConcrete ref (Concrete c) ast argList strictCode env.
Proof. reflexivity. Qed.

(** An ordinary call of a concrete function reaches the invocation with the
    this-value of steps 4 and 5. *)
Lemma EvaluateCall_ordinary ref c ast argList strictCode env realm thisValue :
  isDirectEval ref (Concrete c) realm = false ->
  resolveThisValue ref realm = inr thisValue ->
  EvaluateCall ref (Concrete c) ast argList strictCode env realm
  = invokeWithThis ref (Concrete c) thisValue ast argList strictCode env realm.
Proof.
  intros Hdirect Hthis.
  rewrite EvaluateCall_Concrete.
  unfold EvaluateCallConcrete, bind, readRealm, throwIfNotConcrete, ret.
  rewrite Hdirect, Hthis. reflexivity.
Qed.

(** How the invocation ends, by the outcome of the invocation collaborator
    started from the realm in which [currentLocation] is the call site. *)
Lemma invokeWithThis_outcome ref func thisValue ast argList strictCode env realm :
  invokeWithThis ref func thisValue ast argList strictCode env realm
  = match EvaluateDirectCallWithArgList strictCode env ref func thisValue argList
            (IsInTailPosition realm ast) (withCurrentLocation (loc ast) realm) with
    | Threw (ThrownCompletion k) realm' => Returned (IsCompletion k) realm'
    | o => o
    end.
Proof. reflexivity. Qed.

(** ** This-value resolution *)

(** C7. In [EvaluateCall] on a concrete function, outside the direct-eval
    case: when [ref] is a property reference the function is invoked with
    [GetThisValue(ref)] as this; when [ref] is a reference whose base is an
    environment record, with that record's [WithBaseObject()]; when [ref] is
    a value and no reference, with [realm.intrinsics.undefined]. *)
Theorem EvaluateCall_this_value c ast argList strictCode env realm :
  (forall r,
      IsPropertyReference r = true ->
      EvaluateCall (AReference r) (Concrete c) ast argList strictCode env realm
      = invokeWithThis (AReference r) (Concrete c) (GetThisValue r)
          ast argList strictCode env realm)
  /\ (forall r refEnv,
        IsPropertyReference r = false ->
        GetBase r = BaseEnvironmentRecord refEnv ->
        isDirectEval (AReference r) (Concrete c) realm = false ->
        EvaluateCall (AReference r) (Concrete c) ast argList strictCode env realm
        = invokeWithThis (AReference r) (Concrete c) (WithBaseObject refEnv)
            ast argList strictCode env realm)
  /\ (forall v,
        EvaluateCall (AValue v) (Concrete c) ast argList strictCode env realm
        = invokeWithThis (AValue v) (Concrete c)
            (intrinsics_undefined (intrinsics realm))
            ast argList strictCode env realm).
Proof.
  split; [| split].
  - intros r Hprop. apply EvaluateCall_ordinary.
    + unfold isDirectEval. rewrite Hprop. reflexivity.
    + unfold resolveThisValue. rewrite Hprop. reflexivity.
  - intros r refEnv Hprop Hbase Hdirect. apply EvaluateCall_ordinary.
    + exact Hdirect.
    + unfold resolveThisValue. rewrite Hprop, Hbase. reflexivity.
  - intros v. apply EvaluateCall_ordinary; reflexivity.
Qed.

(** ** Completions raised by the invocation *)

(** C9. When the invocation collaborator throws a [Completion],
    [EvaluateCall] returns that very completion, from the realm the
    collaborator left; when it throws anything else, [EvaluateCall] throws
    the same exception; what it returns is returned as it is. *)
Theorem EvaluateCall_propagates_thrown_completions
    ref c ast argList strictCode env realm thisValue :
  isDirectEval ref (Concrete c) realm = false ->
  resolveThisValue ref realm = inr thisValue ->
  let invocation :=
    EvaluateDirectCallWithArgList strictCode env ref (Concrete c) thisValue argList
      (IsInTailPosition realm ast) (withCurrentLocation (loc ast) realm) in
  (forall k realm',
      invocation = Threw (ThrownCompletion k) realm' ->
      EvaluateCall ref (Concrete c) ast argList strictCode env realm
      = Returned (IsCompletion k) realm')
  /\ (forall e realm',
        invocation = Threw (ThrownError e) realm' ->
        EvaluateCall ref (Concrete c) ast argList strictCode env realm
        = Threw (ThrownError e) realm')
  /\ (forall r realm',
        invocation = Returned r realm' ->
        EvaluateCall ref (Concrete c) ast argList strictCode env realm
        = Returned r realm').
Proof.
  intros Hdirect Hthis invocation.
  rewrite (EvaluateCall_ordinary _ _ _ _ _ _ _ _ Hdirect Hthis).
  rewrite invokeWithThis_outcome. fold invocation.
  split; [| split]; intros ? ? ->; reflexivity.
Qed.

(** ** Abstract callees *)

(** C5, as amended. For a callee that is abstract, of function type and not
    of kind "conditional", [EvaluateCall] makes no call: its outcome is that
    of [AbstractValue.createFromType(realm, Value)], the abstract value of
    the top type [Value]; and it is the same outcome for any other such
    callee, reference, call node, arguments, strictness and environment in
    the same realm, so that nothing declared by the callee or the call has
    a part in it. *)
Theorem EvaluateCall_abstract_function
    ref kind type args ast argList strictCode env realm :
  isTypeCompatibleWith type FunctionValue = true ->
  isConditional kind = false ->
  EvaluateCall ref (AbstractValue kind type args) ast argList strictCode env realm
  = (v <- createFromType TopValue ;; ret (IsValue v)) realm
  /\ forall ref' kind' type' args' ast' argList' strictCode' env',
      isTypeCompatibleWith type' FunctionValue = true ->
      isConditional kind' = false ->
      EvaluateCall ref' (AbstractValue kind' type' args') ast' argList'
        strictCode' env' realm
      = EvaluateCall ref (AbstractValue kind type args) ast argList
          strictCode env realm.
Proof.
  intros Hfun Hkind. split.
  - cbn. rewrite Hfun, Hkind. reflexivity.
  - intros ref' kind' type' args' ast' argList' strictCode' env' Hfun' Hkind'.
    cbn. rewrite Hfun, Hkind, Hfun', Hkind'. reflexivity.
Qed.

(** ** Direct eval *)

(** C4. A call through a non-property reference named "eval": when the
    function is the realm's intrinsic eval, no argument gives
    [realm.intrinsics.undefined] and leaves the realm as it is, whatever
    [PerformEval] would do, and a first argument gives
    [PerformEval(evalText, strictCode, true)]; when the function is another
    one, the call is the ordinary invocation with the this-value of the
    reference's environment record. *)
Theorem EvaluateCall_direct_eval r c ast strictCode env realm :
  IsPropertyReference r = false ->
  GetReferencedName r = NameString "eval" ->
  (SameValue (Concrete c) (intrinsics_eval (intrinsics realm)) = true ->
     EvaluateCall (AReference r) (Concrete c) ast [] strictCode env realm
     = Returned (IsValue (intrinsics_undefined (intrinsics realm))) realm
     /\ forall evalText rest,
         EvaluateCall (AReference r) (Concrete c) ast (evalText :: rest) strictCode env realm
         = PerformEval evalText strictCode true realm)
  /\ (SameValue (Concrete c) (intrinsics_eval (intrinsics realm)) = false ->
      forall refEnv argList,
        GetBase r = BaseEnvironmentRecord refEnv ->
        EvaluateCall (AReference r) (Concrete c) ast argList strictCode env realm
        = invokeWithThis (AReference r) (Concrete c) (WithBaseObject refEnv)
            ast argList strictCode env realm).
Proof.
  intros Hprop Hname. split.
  - intros Hsame.
    assert (Hdirect : isDirectEval (AReference r) (Concrete c) realm = true).
    { unfold isDirectEval. rewrite Hprop, Hname, Hsame. reflexivity. }
    split; [| intros evalText rest];
      rewrite EvaluateCall_Concrete;
      unfold EvaluateCallConcrete, bind, readRealm, throwIfNotConcrete, ret;
      rewrite Hdirect; reflexivity.
  - intros Hsame refEnv argList Hbase.
    apply EvaluateCall_ordinary.
    + unfold isDirectEval. rewrite Hprop, Hname, Hsame. reflexivity.
    + unfold resolveThisValue. rewrite Hprop, Hbase. reflexivity.
Qed.

(** ** Conditional callees *)

Lemma EvaluateCall_conditional ref type funcs ast argList strictCode env :
  isTypeCompatibleWith type FunctionValue = true ->
  EvaluateCall ref (AbstractValue (Some "conditional") type funcs)
    ast argList strictCode env
  = callBothFunctionsAndJoinTheirEffects funcs ast argList strictCode env.
Proof. intros Hfun. cbn. rewrite Hfun. reflexivity. Qed.

(** What the dispatcher does once both captures are made. *)
Lemma callBoth_of_captures cond func1 func2 rest ast argVals strictCode env realm :
  conditionalArgumentsOk cond func1 func2 = true ->
  callBothFunctionsAndJoinTheirEffects (cond :: func1 :: func2 :: rest)
    ast argVals strictCode env realm
  = (e1 <- evaluateForEffects
             (EvaluateCall (AValue func1) func1 ast argVals strictCode env)
             "callBothFunctionsAndJoinTheirEffects/1" ;;
     e2 <- evaluateForEffects
             (EvaluateCall (AValue func2) func2 ast argVals strictCode env)
             "callBothFunctionsAndJoinTheirEffects/2" ;;
     joinAndApplyEffects cond
       (shallowCloneWithoutEffects (result e1)) e1
       (shallowCloneWithoutEffects (result e2)) e2) realm.
Proof.
  intros Hok.
  unfold callBothFunctionsAndJoinTheirEffects,
    callBothFunctionsAndJoinTheirEffects_with.
  rewrite Hok. reflexivity.
Qed.

(** C10. For a conditional callee the reference of the call plays no part:
    whatever [ref] is, a property reference included, each arm is evaluated
    by [EvaluateCall] with the function value of the arm as its own
    reference; and when the arms are concrete functions the dispatcher is
    the one that invokes each arm with [undefined] as this. *)
Theorem conditional_arms_called_with_undefined_this
    type cond func1 func2 rest ast argList strictCode env :
  isTypeCompatibleWith type FunctionValue = true ->
  conditionalArgumentsOk cond func1 func2 = true ->
  (forall ref realm,
      EvaluateCall ref
        (AbstractValue (Some "conditional") type (cond :: func1 :: func2 :: rest))
        ast argList strictCode env realm
      = (e1 <- evaluateForEffects
                 (EvaluateCall (AValue func1) func1 ast argList strictCode env)
                 "callBothFunctionsAndJoinTheirEffects/1" ;;
         e2 <- evaluateForEffects
                 (EvaluateCall (AValue func2) func2 ast argList strictCode env)
                 "callBothFunctionsAndJoinTheirEffects/2" ;;
         joinAndApplyEffects cond
           (shallowCloneWithoutEffects (result e1)) e1
           (shallowCloneWithoutEffects (result e2)) e2) realm)
  /\ (forall c1 c2,
        func1 = Concrete c1 -> func2 = Concrete c2 ->
        forall ref realm,
          EvaluateCall ref
            (AbstractValue (Some "conditional") type (cond :: func1 :: func2 :: rest))
            ast argList strictCode env realm
          = callBothFunctionsAndJoinTheirEffects_with invokeWithUndefinedThis
              (cond :: func1 :: func2 :: rest) ast argList strictCode env realm).
Proof.
  intros Hfun Hok. split.
  - intros ref realm. rewrite (EvaluateCall_conditional _ _ _ _ _ _ _ Hfun).
    apply callBoth_of_captures. exact Hok.
  - intros c1 c2 -> -> ref realm.
    rewrite (EvaluateCall_conditional _ _ _ _ _ _ _ Hfun).
    reflexivity.
Qed.





(** ** The argument loop *)

(** The loop over a list of arguments followed by another is the loop over
    the first, and then, unless it returned, over the second. *)
Lemma evaluateArguments_app pre suf calleeAst strictCode env :
  forall st realm,
    evaluateArguments (pre ++ suf) calleeAst strictCode env st realm
    = (exit <- evaluateArguments pre calleeAst strictCode env st ;;
       match exit with
       | LoopReturn r => ret (LoopReturn r)
       | LoopDone st' => evaluateArguments suf calleeAst strictCode env st'
       end) realm.
Proof.
  induction pre as [| arg pre IH]; intros st realm.
  - reflexivity.
  - cbn [app evaluateArguments]. unfold bind in IH |- *.
    destruct (partiallyEvaluateCompletionDeref env arg strictCode realm)
      as [[[argValue argAst] argIO] realm' | t realm']; [| reflexivity].
    destruct argValue as [v | [v | a | v e]].
    + apply IH.
    + reflexivity.
    + destruct (joinAbrupt (completion st) (AbruptCompletion a) realm'); reflexivity.
    + destruct (match pendingFork (completion st) with
                | Some fork =>
                    composeNormalCompletions (Some fork)
                      (Some (PossiblyNormalCompletion v e)) v
                | None => ret (IsCompletion (PossiblyNormalCompletion v e))
                end realm'); [apply IH | reflexivity].
Qed.

(** Every argument the loop gets through adds one node to [partialArgs]. *)
Lemma evaluateArguments_partialArgs args calleeAst strictCode env :
  forall st realm st' realm',
    evaluateArguments args calleeAst strictCode env st realm
    = Returned (LoopDone st') realm' ->
    List.length (partialArgs st') = List.length (partialArgs st) + List.length args.
Proof.
  induction args as [| arg args IH]; intros st realm st' realm' Hrun.
  - cbn in Hrun. unfold ret in Hrun. injection Hrun as <- _.
    cbn. rewrite PeanoNat.Nat.add_0_r. reflexivity.
  - cbn [evaluateArguments] in Hrun. unfold bind at 1 in Hrun.
    destruct (partiallyEvaluateCompletionDeref env arg strictCode realm)
      as [[[argValue argAst] argIO] realm1 | t realm1]; [| discriminate].
    destruct argValue as [v | [v | a | v e]].
    + apply IH in Hrun. rewrite Hrun. cbn [partialArgs List.length].
      rewrite List.length_app. cbn. rewrite <- PeanoNat.Nat.add_assoc. reflexivity.
    + discriminate.
    + unfold bind in Hrun.
      destruct (joinAbrupt (completion st) (AbruptCompletion a) realm1); discriminate.
    + unfold bind at 1 in Hrun.
      destruct (match pendingFork (completion st) with
                | Some fork =>
                    composeNormalCompletions (Some fork)
                      (Some (PossiblyNormalCompletion v e)) v
                | None => ret (IsCompletion (PossiblyNormalCompletion v e))
                end realm1); [| discriminate].
      apply IH in Hrun. rewrite Hrun. cbn [partialArgs List.length].
      rewrite List.length_app. cbn. rewrite <- PeanoNat.Nat.add_assoc. reflexivity.
Qed.

(** The loop on an argument whose evaluation is abrupt. *)
Lemma evaluateArguments_abrupt arg rest calleeAst strictCode env st realm
    a argAst argIO realm' :
  partiallyEvaluateCompletionDeref env arg strictCode realm
  = Returned (IsCompletion (AbruptCompletion a), argAst, argIO) realm' ->
  evaluateArguments (arg :: rest) calleeAst strictCode env st realm
  = (completion' <- joinAbrupt (completion st) (AbruptCompletion a) ;;
     ret (LoopReturn (IsCompletion completion',
                      callExpression calleeAst (partialArgs st ++ [argAst]),
                      io st ++ argIO))) realm'.
Proof.
  intros Harg. cbn [evaluateArguments].
  rewrite (bind_returned _ _ _ _ _ Harg). reflexivity.
Qed.

(** C3. An abrupt completion before the call ends the evaluation where it
    arises.  When the callee evaluates to an abrupt completion, that
    completion is returned with the callee's residual node and statements,
    from the realm the callee evaluation left: no argument is evaluated and
    no call made.  When, after the arguments [pre], the argument [arg]
    evaluates to an abrupt completion, the evaluator returns it, joined with
    the pending fork by [stopEffectCaptureJoinApplyAndReturnCompletion] when
    one is open and as it is otherwise, with a call node over the nodes of
    [pre] and [arg] alone and the statements gathered up to [arg]; the
    arguments [rest] have no part in the result. *)
Theorem abrupt_before_call_short_circuits strictCode env :
  (forall ast realm a calleeAst calleeIO realm1,
      partiallyEvaluateCompletion env (callee ast) strictCode realm
      = Returned (CalleeCompletion (AbruptCompletion a), calleeAst, calleeIO) realm1 ->
      CallExpression_default ast strictCode env realm
      = Returned (IsCompletion (AbruptCompletion a), calleeAst, calleeIO) realm1)
  /\ (forall calleeNode pre arg rest l realm
             calleeResult calleeAst calleeIO realm1 completion0 ref func realm2
             st realm3 a argAst argIO realm4,
        partiallyEvaluateCompletion env calleeNode strictCode realm
        = Returned (calleeResult, calleeAst, calleeIO) realm1 ->
        splitCallee calleeResult = inr (completion0, ref) ->
        GetValue ref realm1 = Returned func realm2 ->
        evaluateArguments pre calleeAst strictCode env
          (mkLoop calleeIO [] [] completion0) realm2
        = Returned (LoopDone st) realm3 ->
        partiallyEvaluateCompletionDeref env arg strictCode realm3
        = Returned (IsCompletion (AbruptCompletion a), argAst, argIO) realm4 ->
        let residual := callExpression calleeAst (partialArgs st ++ [argAst]) in
        List.length (partialArgs st ++ [argAst]) = S (List.length pre)
        /\ CallExpression_default (mkCall calleeNode (pre ++ arg :: rest) l)
             strictCode env realm
           = match pendingFork (completion st) with
             | Some fork =>
                 (joined <- stopEffectCaptureJoinApplyAndReturnCompletion
                              fork (AbruptCompletion a) ;;
                  ret (IsCompletion joined, residual, io st ++ argIO)) realm4
             | None =>
                 Returned (IsCompletion (AbruptCompletion a), residual, io st ++ argIO)
                   realm4
             end).
Proof.
  split.
  - intros ast realm a calleeAst calleeIO realm1 Hcallee.
    unfold CallExpression_default.
    rewrite (bind_returned _ _ _ _ _ Hcallee). reflexivity.
  - intros calleeNode pre arg rest l realm calleeResult calleeAst calleeIO realm1
      completion0 ref func realm2 st realm3 a argAst argIO realm4
      Hcallee Hsplit Hfunc Hpre Harg residual.
    split.
    + rewrite List.length_app, (evaluateArguments_partialArgs _ _ _ _ _ _ _ _ Hpre).
      cbn. rewrite PeanoNat.Nat.add_1_r. reflexivity.
    + unfold CallExpression_default. cbn [callee arguments].
      rewrite (bind_returned _ _ _ _ _ Hcallee).
      assert (Hrest :
        (let '(completion, ref0) := (completion0, ref) in
         func0 <- GetValue ref0 ;;
         exit <- evaluateArguments (pre ++ arg :: rest) calleeAst strictCode env
                   (mkLoop calleeIO [] [] completion) ;;
         match exit with
         | LoopReturn r => ret r
         | LoopDone st0 =>
             callWithLocation ref0 func0
               (mkCall calleeNode (pre ++ arg :: rest) l) calleeAst strictCode env st0
         end) realm1
        = match pendingFork (completion st) with
          | Some fork =>
              (joined <- stopEffectCaptureJoinApplyAndReturnCompletion
                           fork (AbruptCompletion a) ;;
               ret (IsCompletion joined, residual, io st ++ argIO)) realm4
          | None =>
              Returned (IsCompletion (AbruptCompletion a), residual, io st ++ argIO)
                realm4
          end).
      { cbn beta iota. rewrite (bind_returned _ _ _ _ _ Hfunc).
        unfold bind at 1. rewrite evaluateArguments_app.
        rewrite (bind_returned _ _ _ _ _ Hpre).
        rewrite (evaluateArguments_abrupt _ _ _ _ _ _ _ _ _ _ _ Harg).
        unfold joinAbrupt, bind.
        destruct (pendingFork (completion st)) as [fork |]; [| reflexivity].
        destruct (stopEffectCaptureJoinApplyAndReturnCompletion
                    fork (AbruptCompletion a) realm4); reflexivity. }
      destruct calleeResult as [v | r | [v | a0 | v e]]; cbn in Hsplit;
        try discriminate; injection Hsplit as <- <-; exact Hrest.
Qed.

(** ** The call itself *)

(** The [finally] block puts back the location that line 71 replaced,
    whether the [try] block returned or threw. *)
Lemma callWithLocation_outcome ref func ast calleeAst strictCode env st realm :
  callWithLocation ref func ast calleeAst strictCode env st realm
  = match callAndCompose ref func ast calleeAst strictCode env st
            (withNextContextLocation (loc ast) realm) with
    | Returned r realm' =>
        Returned r (withNextContextLocation (nextContextLocation realm) realm')
    | Threw t realm' =>
        Threw t (withNextContextLocation (nextContextLocation realm) realm')
    end.
Proof.
  unfold callWithLocation, bind, setNextExecutionContextLocation, tryFinally, ret.
  destruct (callAndCompose ref func ast calleeAst strictCode env st
              (withNextContextLocation (loc ast) realm)); reflexivity.
Qed.

(** Arguments that fold leave the loop with their values, their own nodes
    and no further statement. *)
Lemma evaluateArguments_fold strictCode env args realm vals realm' :
  argumentsFold strictCode env args realm vals realm' ->
  forall calleeAst st,
    evaluateArguments args calleeAst strictCode env st realm
    = Returned
        (LoopDone (mkLoop (io st) (partialArgs st ++ args)
                          (argVals st ++ vals) (completion st)))
        realm'.
Proof.
  induction 1 as [realm | arg rest realm v realm1 vs realm2 Harg _ IH];
    intros calleeAst st.
  - destruct st. cbn. rewrite !app_nil_r. reflexivity.
  - cbn [evaluateArguments]. rewrite (bind_returned _ _ _ _ _ Harg).
    cbn beta iota. rewrite IH. cbn [io partialArgs argVals completion].
    rewrite app_nil_r, <- !app_assoc. reflexivity.
Qed.

(** With no fork pending and a call that returns a plain value, lines 73-89
    return that value with the call node over [partialArgs]. *)
Lemma callAndCompose_plain_value (Hjoin : join_passes_plain_values)
    ref func ast calleeAst strictCode env st realm v realm' :
  completion st = None ->
  EvaluateCall ref func ast (argVals st) strictCode env realm
  = Returned (IsValue v) realm' ->
  callAndCompose ref func ast calleeAst strictCode env st realm
  = Returned (IsValue v, callExpression calleeAst (partialArgs st), io st) realm'.
Proof.
  intros Hnone Hcall. destruct Hjoin as [Hunbundle Hcompose].
  unfold callAndCompose. rewrite (bind_returned _ _ _ _ _ Hcall).
  rewrite Hunbundle. cbn [liftPure]. unfold bind at 1. cbn [ret].
  rewrite Hnone. cbn [pendingFork].
  rewrite (bind_returned _ _ _ _ _ (Hcompose v realm')). reflexivity.
Qed.

(** C1. A call whose callee evaluates to a value or a reference with its
    own node and no residual statement, whose function is concrete, and
    whose arguments all evaluate to plain values in the same way: when the
    call returns the value [v] and no abrupt completion, the evaluator
    returns [v], the call node built from the callee and argument nodes of
    the input, and no residual statement.  This holds for the call as
    [EvaluateCall] makes it, and so for the value the invocation
    collaborator returns in an ordinary call. *)
Theorem concrete_call_is_direct_invocation
    (Hjoin : join_passes_plain_values)
    ast strictCode env realm calleeResult ref realm1 c realm2 vals realm3 :
  partiallyEvaluateCompletion env (callee ast) strictCode realm
  = Returned (calleeResult, callee ast, []) realm1 ->
  splitCallee calleeResult = inr (None, ref) ->
  GetValue ref realm1 = Returned (Concrete c) realm2 ->
  argumentsFold strictCode env (arguments ast) realm2 vals realm3 ->
  let started := withNextContextLocation (loc ast) realm3 in
  let restored := withNextContextLocation (nextContextLocation realm3) in
  (forall v realm4,
      EvaluateCall ref (Concrete c) ast vals strictCode env started
      = Returned (IsValue v) realm4 ->
      CallExpression_default ast strictCode env realm
      = Returned
          (IsValue v, callExpression (callee ast) (arguments ast), [])
          (restored realm4))
  /\ (forall thisValue v realm4,
        isDirectEval ref (Concrete c) started = false ->
        resolveThisValue ref started = inr thisValue ->
        EvaluateDirectCallWithArgList strictCode env ref (Concrete c) thisValue vals
          (IsInTailPosition started ast) (withCurrentLocation (loc ast) started)
        = Returned (IsValue v) realm4 ->
        CallExpression_default ast strictCode env realm
        = Returned
            (IsValue v, callExpression (callee ast) (arguments ast), [])
            (restored realm4)).
Proof.
  intros Hcallee Hsplit Hfunc Hargs started restored.
  assert (Hmain : forall v realm4,
    EvaluateCall ref (Concrete c) ast vals strictCode env started
    = Returned (IsValue v) realm4 ->
    CallExpression_default ast strictCode env realm
    = Returned
        (IsValue v, callExpression (callee ast) (arguments ast), [])
        (restored realm4)).
  { intros v realm4 Hcall.
    unfold CallExpression_default.
    rewrite (bind_returned _ _ _ _ _ Hcallee).
    assert (Hrest :
      (let '(completion, ref0) := (@None CompletionOrValue, ref) in
       func0 <- GetValue ref0 ;;
       exit <- evaluateArguments (arguments ast) (callee ast) strictCode env
                 (mkLoop [] [] [] completion) ;;
       match exit with
       | LoopReturn r => ret r
       | LoopDone st0 =>
           callWithLocation ref0 func0 ast (callee ast) strictCode env st0
       end) realm1
      = Returned
          (IsValue v, callExpression (callee ast) (arguments ast), [])
          (restored realm4)).
    { cbn beta iota. rewrite (bind_returned _ _ _ _ _ Hfunc).
      rewrite (bind_returned _ _ _ _ _
                 (evaluateArguments_fold _ _ _ _ _ _ Hargs (callee ast)
                    (mkLoop [] [] [] None))).
      cbn [io partialArgs argVals completion app].
      rewrite callWithLocation_outcome. fold started.
      rewrite (callAndCompose_plain_value Hjoin ref (Concrete c) ast (callee ast)
                 strictCode env (mkLoop [] (arguments ast) vals None)
                 started v realm4 eq_refl Hcall).
      reflexivity. }
    destruct calleeResult as [v0 | r | [v0 | a0 | v0 e]]; cbn in Hsplit;
      try discriminate; injection Hsplit as <-; exact Hrest. }
  split; [exact Hmain |].
  intros thisValue v realm4 Hdirect Hthis Hinvoke.
  apply Hmain.
  rewrite (EvaluateCall_ordinary _ _ _ _ _ _ _ _ Hdirect Hthis).
  rewrite invokeWithThis_outcome, Hinvoke. reflexivity.
Qed.

(** ** The recorded call-site location *)

Lemma evaluateArguments_keeps_location (Hkeep : steps_before_call_keep_location)
    calleeAst strictCode env args :
  forall st, keepsNextContextLocation
               (evaluateArguments args calleeAst strictCode env st).
Proof.
  destruct Hkeep as (_ & Hderef & _ & Hstop & Hcompose).
  induction args as [| arg args IH]; intros st realm.
  - reflexivity.
  - cbn [evaluateArguments]. unfold bind at 1.
    specialize (Hderef env arg strictCode realm).
    destruct (partiallyEvaluateCompletionDeref env arg strictCode realm)
      as [[[argValue argAst] argIO] realm1 | t realm1]; cbn in Hderef;
      [| exact Hderef].
    destruct argValue as [v | [v | a | v e]].
    + rewrite IH. exact Hderef.
    + exact Hderef.
    + unfold joinAbrupt, bind.
      destruct (pendingFork (completion st)) as [fork |]; [| exact Hderef].
      specialize (Hstop fork (AbruptCompletion a) realm1).
      destruct (stopEffectCaptureJoinApplyAndReturnCompletion
                  fork (AbruptCompletion a) realm1);
        cbn in Hstop |- *; congruence.
    + unfold bind at 1.
      destruct (pendingFork (completion st)) as [fork |].
      * specialize (Hcompose (Some fork) (Some (PossiblyNormalCompletion v e)) v realm1).
        destruct (composeNormalCompletions (Some fork)
                    (Some (PossiblyNormalCompletion v e)) v realm1);
          cbn in Hcompose |- *; [rewrite IH |]; congruence.
      * cbn. rewrite IH. exact Hderef.
Qed.

Lemma callWithLocation_keeps_location ref func ast calleeAst strictCode env st :
  keepsNextContextLocation
    (callWithLocation ref func ast calleeAst strictCode env st).
Proof.
  intros realm. rewrite callWithLocation_outcome.
  destruct (callAndCompose ref func ast calleeAst strictCode env st
              (withNextContextLocation (loc ast) realm)); reflexivity.
Qed.

(** C8, as amended. The location recorded with
    [setNextExecutionContextLocation] before the call is put back on every
    exit of lines 71-92, returned or thrown, so that the realm ends with the
    next-context location it had; and when the steps before the call keep
    that location, so does the whole evaluator on every exit.
    [realm.currentLocation] is another matter: an ordinary call ends in the
    realm the invocation left after starting from the call site as current
    location. *)
Theorem next_context_location_restored :
  (forall ref func ast calleeAst strictCode env st realm,
      nextContextLocation
        (finalState (callWithLocation ref func ast calleeAst strictCode env st realm))
      = nextContextLocation realm)
  /\ (steps_before_call_keep_location ->
      forall ast strictCode env realm,
        nextContextLocation
          (finalState (CallExpression_default ast strictCode env realm))
        = nextContextLocation realm)
  /\ (forall ref c ast argList strictCode env realm thisValue,
        isDirectEval ref (Concrete c) realm = false ->
        resolveThisValue ref realm = inr thisValue ->
        finalState (EvaluateCall ref (Concrete c) ast argList strictCode env realm)
        = finalState
            (EvaluateDirectCallWithArgList strictCode env ref (Concrete c)
               thisValue argList (IsInTailPosition realm ast)
               (withCurrentLocation (loc ast) realm))).
Proof.
  split; [| split].
  - intros. apply callWithLocation_keeps_location.
  - intros Hkeep ast strictCode env realm.
    pose proof Hkeep as (Hcallee & _ & Hvalue & _ & _).
    unfold CallExpression_default, bind at 1.
    specialize (Hcallee env (callee ast) strictCode realm).
    destruct (partiallyEvaluateCompletion env (callee ast) strictCode realm)
      as [[[calleeResult calleeAst] calleeIO] realm1 | t realm1];
      cbn in Hcallee; [| exact Hcallee].
    assert (Hrest : forall completion0 ref,
      nextContextLocation
        (finalState
           ((func <- GetValue ref ;;
             exit <- evaluateArguments (arguments ast) calleeAst strictCode env
                       (mkLoop calleeIO [] [] completion0) ;;
             match exit with
             | LoopReturn r => ret r
             | LoopDone st =>
                 callWithLocation ref func ast calleeAst strictCode env st
             end) realm1))
      = nextContextLocation realm).
    { intros completion0 ref. unfold bind at 1.
      specialize (Hvalue ref realm1).
      destruct (GetValue ref realm1) as [func realm2 | t realm2];
        cbn in Hvalue; [| cbn; congruence].
      unfold bind.
      pose proof (evaluateArguments_keeps_location Hkeep calleeAst strictCode env
                    (arguments ast) (mkLoop calleeIO [] [] completion0) realm2)
        as Hloop.
      destruct (evaluateArguments (arguments ast) calleeAst strictCode env
                  (mkLoop calleeIO [] [] completion0) realm2)
        as [[r | st] realm3 | t realm3]; cbn in Hloop.
      - cbn. congruence.
      - rewrite callWithLocation_keeps_location. congruence.
      - cbn. congruence. }
    destruct calleeResult as [v | r | [v | a | v e]]; cbn [splitCallee liftPure].
    + apply Hrest.
    + apply Hrest.
    + exact Hcallee.
    + exact Hcallee.
    + apply Hrest.
  - intros ref c ast argList strictCode env realm thisValue Hdirect Hthis.
    rewrite (EvaluateCall_ordinary _ _ _ _ _ _ _ _ Hdirect Hthis).
    rewrite invokeWithThis_outcome.
    destruct (EvaluateDirectCallWithArgList strictCode env ref (Concrete c)
                thisValue argList (IsInTailPosition realm ast)
                (withCurrentLocation (loc ast) realm)) as [r realm' | [k | e] realm'];
      reflexivity.
Qed.

End Properties.

(** * Further properties of the three functions *)

From Stdlib Require Import Lia.

Section FurtherProperties.

Context {C : Carriers} {H : Collaborators}.
Local Open Scope eval_scope.

(** ** What the conditional dispatcher can return *)

Lemma joinAndApplyEffects_returns cond r1 e1 r2 e2 realm r realm' :
  joinAndApplyEffects cond r1 e1 r2 e2 realm = Returned r realm' ->
  (exists v, r = IsValue v) \/ (exists a, r = IsCompletion (AbruptCompletion a)).
Proof.
  unfold joinAndApplyEffects, bind. intros Hrun.
  destruct (joinForkOrChoose _ _ _ realm) as [joined realm1 | t realm1];
    [| discriminate].
  destruct (joinedCompletionOf joined realm1) as [jc realm2 | t realm2];
    [| discriminate].
  destruct (applyEffects joined realm2) as [[] realm3 | t realm3];
    [| discriminate].
  destruct jc as [v | [v | a | v e]]; try discriminate;
    injection Hrun as <- _; eauto.
Qed.

(** X1. Whatever the list of values handed to it, when
    [callBothFunctionsAndJoinTheirEffects] returns, it returns a value or an
    abrupt completion, never a normal or possibly normal completion
    object. *)
Theorem dispatcher_returns_value_or_abrupt
    funcs ast argVals strictCode env realm r realm' :
  callBothFunctionsAndJoinTheirEffects funcs ast argVals strictCode env realm
  = Returned r realm' ->
  (exists v, r = IsValue v) \/ (exists a, r = IsCompletion (AbruptCompletion a)).
Proof.
  unfold callBothFunctionsAndJoinTheirEffects,
    callBothFunctionsAndJoinTheirEffects_with.
  destruct funcs as [| cond [| func1 [| func2 rest]]].
  - discriminate.
  - unfold bind, invariant.
    destruct (isAbstractValue cond && sameType (getType cond) BooleanValue);
      discriminate.
  - unfold bind, invariant.
    destruct (isAbstractValue cond && sameType (getType cond) BooleanValue);
      [| discriminate].
    cbn. destruct (isTypeCompatibleWith (getType func1) FunctionValue); discriminate.
  - unfold invariant.
    destruct (conditionalArgumentsOk cond func1 func2); [| discriminate].
    unfold bind at 1. cbn [ret]. unfold bind at 1.
    destruct (evaluateForEffects _ _ realm) as [e1 realm1 | t realm1];
      [| discriminate].
    unfold bind at 1.
    destruct (evaluateForEffects _ _ realm1) as [e2 realm2 | t realm2];
      [| discriminate].
    apply joinAndApplyEffects_returns.
Qed.

(** X2. When the join of the two arms is possibly normal and
    [realm.composeWithSavedCompletion] answers with a possibly normal
    completion, the dispatcher applies the joined effects and then fails the
    [invariant] of line 143: it throws from the realm [applyEffects] left,
    and returns nothing. *)
Theorem dispatcher_refuses_possibly_normal
    cond func1 func2 rest ast argVals strictCode env
    realm e1 realm1 e2 realm2 joined realm3 v e realm4 realm5 :
  conditionalArgumentsOk cond func1 func2 = true ->
  evaluateForEffects
    (EvaluateCall (AValue func1) func1 ast argVals strictCode env)
    "callBothFunctionsAndJoinTheirEffects/1" realm = Returned e1 realm1 ->
  evaluateForEffects
    (EvaluateCall (AValue func2) func2 ast argVals strictCode env)
    "callBothFunctionsAndJoinTheirEffects/2" realm1 = Returned e2 realm2 ->
  joinForkOrChoose cond
    (mkEffects (shallowCloneWithoutEffects (result e1)) (generator e1)
               (modifiedBindings e1) (modifiedProperties e1) (createdObjects e1))
    (mkEffects (shallowCloneWithoutEffects (result e2)) (generator e2)
               (modifiedBindings e2) (modifiedProperties e2) (createdObjects e2))
    realm2 = Returned joined realm3 ->
  isPossiblyNormal (result joined) = true ->
  composeWithSavedCompletion (result joined) realm3
  = Returned (IsCompletion (PossiblyNormalCompletion v e)) realm4 ->
  applyEffects joined realm4 = Returned tt realm5 ->
  callBothFunctionsAndJoinTheirEffects (cond :: func1 :: func2 :: rest)
    ast argVals strictCode env realm
  = Threw (ThrownError InvariantViolation) realm5.
Proof.
  intros Hok Harm1 Harm2 Hjoin Hpossibly Hcompose Happly.
  rewrite (callBoth_of_captures _ _ _ _ _ _ _ _ _ Hok).
  rewrite (bind_returned _ _ _ _ _ Harm1), (bind_returned _ _ _ _ _ Harm2).
  unfold joinAndApplyEffects.
  rewrite (bind_returned _ _ _ _ _ Hjoin).
  unfold joinedCompletionOf. rewrite Hpossibly.
  rewrite (bind_returned _ _ _ _ _ Hcompose).
  rewrite (bind_returned _ _ _ _ _ Happly). reflexivity.
Qed.

(** X9. A conditional whose list of values is shorter than three, or fails
    one of the three [invariant]s of lines 104-106, is refused before any
    arm is evaluated: [EvaluateCall] throws a host error from the realm it
    was entered with. *)
Theorem malformed_conditional_refused
    ref type funcs ast argList strictCode env realm :
  isTypeCompatibleWith type FunctionValue = true ->
  match funcs with
  | cond :: func1 :: func2 :: _ => conditionalArgumentsOk cond func1 func2 = false
  | _ => True
  end ->
  exists e,
    EvaluateCall ref (AbstractValue (Some "conditional") type funcs)
      ast argList strictCode env realm
    = Threw (ThrownError e) realm.
Proof.
  intros Hfun Hbad.
  rewrite (EvaluateCall_conditional _ _ _ _ _ _ _ Hfun).
  unfold callBothFunctionsAndJoinTheirEffects,
    callBothFunctionsAndJoinTheirEffects_with.
  destruct funcs as [| cond [| func1 [| func2 rest]]].
  - eexists. reflexivity.
  - unfold bind, invariant.
    destruct (isAbstractValue cond && sameType (getType cond) BooleanValue);
      eexists; reflexivity.
  - unfold bind, invariant.
    destruct (isAbstractValue cond && sameType (getType cond) BooleanValue);
      [| eexists; reflexivity].
    cbn. destruct (isTypeCompatibleWith (getType func1) FunctionValue);
      eexists; reflexivity.
  - rewrite Hbad. eexists. reflexivity.
Qed.

(** X8. An abstract callee that is not of function type is never
    dispatched or invoked, even when its kind is "conditional": the call
    ends as the introspection failure raised for it does. *)
Theorem abstract_non_function_not_called
    ref kind type args ast argList strictCode env realm t realm' :
  isTypeCompatibleWith type FunctionValue = false ->
  reportIntrospectionErrorAndThrow (AbstractValue kind type args) realm
  = Threw t realm' ->
  EvaluateCall ref (AbstractValue kind type args) ast argList strictCode env realm
  = Threw t realm'.
Proof.
  intros Hfun Hreport. cbn [EvaluateCall]. rewrite Hfun.
  unfold EvaluateCallConcrete, throwIfNotConcrete.
  rewrite (bind_threw _ _ _ _ _ Hreport). reflexivity.
Qed.

(** ** What the evaluator gathers *)

(** The loop only ever adds to what it gathers: on running out of arguments
    it has added one node and one value for each argument, and on the
    [return] of line 58 the call node holds the nodes gathered before plus
    at least one and at most as many as there are arguments; on either way
    out the statements of the start come first. *)
Lemma evaluateArguments_shape calleeAst strictCode env args :
  forall st realm exit realm',
    evaluateArguments args calleeAst strictCode env st realm = Returned exit realm' ->
    match exit with
    | LoopDone st' =>
        exists nodes vals stmts,
          partialArgs st' = partialArgs st ++ nodes
          /\ List.length nodes = List.length args
          /\ argVals st' = argVals st ++ vals
          /\ List.length vals = List.length args
          /\ io st' = io st ++ stmts
    | LoopReturn (c, node, stmts') =>
        exists nodes stmts k,
          node = callExpression calleeAst (partialArgs st ++ nodes)
          /\ 1 <= List.length nodes <= List.length args
          /\ stmts' = io st ++ stmts
          /\ c = IsCompletion k
    end.
Proof.
  induction args as [| arg args IH]; intros st realm exit realm' Hrun.
  - cbn in Hrun. unfold ret in Hrun. injection Hrun as <- _.
    exists [], [], []. rewrite !app_nil_r. repeat split; reflexivity.
  - cbn [evaluateArguments] in Hrun. unfold bind at 1 in Hrun.
    destruct (partiallyEvaluateCompletionDeref env arg strictCode realm)
      as [[[argValue argAst] argIO] realm1 | t realm1]; [| discriminate].
    assert (Hstep : forall vals' completion' realm2,
      evaluateArguments args calleeAst strictCode env
        (mkLoop (io st ++ argIO) (partialArgs st ++ [argAst]) vals' completion')
        realm2 = Returned exit realm' ->
      (exists v, vals' = argVals st ++ [v]) ->
      match exit with
      | LoopDone st' =>
          exists nodes vals stmts,
            partialArgs st' = partialArgs st ++ nodes
            /\ List.length nodes = List.length (arg :: args)
            /\ argVals st' = argVals st ++ vals
            /\ List.length vals = List.length (arg :: args)
            /\ io st' = io st ++ stmts
      | LoopReturn (c, node, stmts') =>
          exists nodes stmts k,
            node = callExpression calleeAst (partialArgs st ++ nodes)
            /\ 1 <= List.length nodes <= List.length (arg :: args)
            /\ stmts' = io st ++ stmts
            /\ c = IsCompletion k
      end).
    { intros vals' completion' realm2 Hrest [v ->]. apply IH in Hrest.
      destruct exit as [[[c node] stmts'] | st']; cbn [io partialArgs argVals] in Hrest.
      - destruct Hrest as (nodes & stmts & k & -> & Hlen & -> & ->).
        exists (argAst :: nodes), (argIO ++ stmts), k.
        rewrite <- !app_assoc. cbn [app List.length]. repeat split; lia.
      - destruct Hrest as (nodes & vals & stmts & Hnodes & Hlen & Hvals & Hlen' & Hio).
        exists (argAst :: nodes), (v :: vals), (argIO ++ stmts).
        rewrite Hnodes, Hvals, Hio, <- !app_assoc. cbn [app List.length].
        repeat split; lia. }
    destruct argValue as [v | [v | a | v e]].
    + apply (Hstep _ _ _ Hrun). eexists. reflexivity.
    + discriminate.
    + unfold bind in Hrun.
      destruct (joinAbrupt (completion st) (AbruptCompletion a) realm1)
        as [completion' realm2 | t realm2]; [| discriminate].
      cbn in Hrun. unfold ret in Hrun. injection Hrun as <- _.
      exists [argAst], argIO, completion'. cbn [List.length].
      repeat split; lia.
    + unfold bind at 1 in Hrun.
      destruct (match pendingFork (completion st) with
                | Some fork =>
                    composeNormalCompletions (Some fork)
                      (Some (PossiblyNormalCompletion v e)) v
                | None => ret (IsCompletion (PossiblyNormalCompletion v e))
                end realm1) as [completion' realm2 | t realm2]; [| discriminate].
      apply (Hstep _ _ _ Hrun). eexists. reflexivity.
Qed.

(** X4. When the loop of lines 49-69 runs out of arguments, it has gathered
    exactly one value and one residual node for each argument of the call:
    the function is called with as many values as the call has arguments. *)
Theorem arguments_one_value_each
    args calleeAst calleeIO completion0 strictCode env realm st realm' :
  evaluateArguments args calleeAst strictCode env
    (mkLoop calleeIO [] [] completion0) realm
  = Returned (LoopDone st) realm' ->
  List.length (argVals st) = List.length args
  /\ List.length (partialArgs st) = List.length args.
Proof.
  intros Hrun. apply evaluateArguments_shape in Hrun.
  destruct Hrun as (nodes & vals & stmts & Hnodes & Hlen & Hvals & Hlen' & _).
  cbn in Hnodes, Hvals. rewrite Hnodes, Hvals. split; assumption.
Qed.

(** Whatever lines 73-89 return, the node is the call over the gathered
    nodes and the statements are the gathered ones. *)
Lemma callAndCompose_shape ref func ast calleeAst strictCode env st realm
    c node stmts realm' :
  callAndCompose ref func ast calleeAst strictCode env st realm
  = Returned (c, node, stmts) realm' ->
  node = callExpression calleeAst (partialArgs st) /\ stmts = io st.
Proof.
  unfold callAndCompose, bind, ret, throw. intros Hrun.
  repeat match type of Hrun with
         | context [match ?x with _ => _ end] =>
             destruct x eqn:?; try discriminate
         end;
    injection Hrun as _ <- <- _; split; reflexivity.
Qed.

(** X3. Every result the evaluator returns has one of two shapes.  After an
    abrupt callee it is that completion with the residual node and
    statements of the callee.  Otherwise the residual node is a call built
    by [t.callExpression] over the callee's residual node and at most as
    many argument nodes as the call has arguments, and the residual
    statements begin with those of the callee. *)
Theorem residual_shape
    ast strictCode env realm r calleeAst calleeIO realm1 c node stmts realm' :
  partiallyEvaluateCompletion env (callee ast) strictCode realm
  = Returned (r, calleeAst, calleeIO) realm1 ->
  CallExpression_default ast strictCode env realm
  = Returned (c, node, stmts) realm' ->
  match r with
  | CalleeCompletion (AbruptCompletion a) =>
      c = IsCompletion (AbruptCompletion a) /\ node = calleeAst
      /\ stmts = calleeIO /\ realm' = realm1
  | _ =>
      exists nodes extra,
        node = callExpression calleeAst nodes
        /\ List.length nodes <= List.length (arguments ast)
        /\ stmts = calleeIO ++ extra
  end.
Proof.
  intros Hcallee Hrun. unfold CallExpression_default in Hrun.
  rewrite (bind_returned _ _ _ _ _ Hcallee) in Hrun.
  assert (Hrest : forall completion0 ref,
    (func <- GetValue ref ;;
     exit <- evaluateArguments (arguments ast) calleeAst strictCode env
               (mkLoop calleeIO [] [] completion0) ;;
     match exit with
     | LoopReturn r0 => ret r0
     | LoopDone st => callWithLocation ref func ast calleeAst strictCode env st
     end) realm1 = Returned (c, node, stmts) realm' ->
    exists nodes extra,
      node = callExpression calleeAst nodes
      /\ List.length nodes <= List.length (arguments ast)
      /\ stmts = calleeIO ++ extra).
  { intros completion0 ref Hbody. unfold bind at 1 in Hbody.
    destruct (GetValue ref realm1) as [func realm2 | t realm2]; [| discriminate].
    unfold bind at 1 in Hbody.
    destruct (evaluateArguments (arguments ast) calleeAst strictCode env
                (mkLoop calleeIO [] [] completion0) realm2)
      as [exit realm3 | t realm3] eqn:Hloop; [| discriminate].
    apply evaluateArguments_shape in Hloop.
    destruct exit as [[[c0 node0] stmts0] | st].
    - unfold ret in Hbody. injection Hbody as <- <- <- _.
      destruct Hloop as (nodes & extra & k & -> & Hlen & -> & _).
      exists nodes, extra. cbn. repeat split; lia.
    - rewrite callWithLocation_outcome in Hbody.
      destruct (callAndCompose ref func ast calleeAst strictCode env st
                  (withNextContextLocation (loc ast) realm3))
        as [[[c0 node0] stmts0] realm4 | t realm4] eqn:Hcall; [| discriminate].
      injection Hbody as <- <- <- _.
      apply callAndCompose_shape in Hcall as [-> ->].
      destruct Hloop as (nodes & vals & extra & Hnodes & Hlen & _ & _ & Hio).
      cbn in Hnodes, Hio. exists nodes, extra. rewrite Hnodes, Hio.
      repeat split; lia. }
  destruct r as [v | r | [v | a | v e]]; cbn [splitCallee liftPure] in Hrun.
  - eapply Hrest. exact Hrun.
  - eapply Hrest. exact Hrun.
  - discriminate.
  - unfold ret in Hrun. injection Hrun as <- <- <- <-. repeat split; reflexivity.
  - eapply Hrest. exact Hrun.
Qed.

(** ** Calls that do not end normally *)

(** Lines 74-80 under the [finally] of line 90: a call that returns an
    abrupt completion. *)
Lemma callWithLocation_abrupt ref func ast calleeAst strictCode env st realm a realm1 :
  EvaluateCall ref func ast (argVals st) strictCode env
    (withNextContextLocation (loc ast) realm)
  = Returned (IsCompletion (AbruptCompletion a)) realm1 ->
  callWithLocation ref func ast calleeAst strictCode env st realm
  = match pendingFork (completion st) with
    | None =>
        Returned
          (IsCompletion (AbruptCompletion a),
           callExpression calleeAst (partialArgs st), io st)
          (withNextContextLocation (nextContextLocation realm) realm1)
    | Some fork =>
        match stopEffectCaptureJoinApplyAndReturnCompletion
                fork (AbruptCompletion a) realm1 with
        | Returned joined realm2 =>
            Returned
              (IsCompletion joined,
               callExpression calleeAst (partialArgs st), io st)
              (withNextContextLocation (nextContextLocation realm) realm2)
        | Threw t realm2 =>
            Threw t (withNextContextLocation (nextContextLocation realm) realm2)
        end
    end.
Proof.
  intros Hcall. rewrite callWithLocation_outcome. unfold callAndCompose.
  rewrite (bind_returned _ _ _ _ _ Hcall). unfold joinAbrupt, bind.
  destruct (pendingFork (completion st)) as [fork |]; [| reflexivity].
  destruct (stopEffectCaptureJoinApplyAndReturnCompletion
              fork (AbruptCompletion a) realm1); reflexivity.
Qed.

(** The same lines when the call throws. *)
Lemma callWithLocation_threw ref func ast calleeAst strictCode env st realm t realm1 :
  EvaluateCall ref func ast (argVals st) strictCode env
    (withNextContextLocation (loc ast) realm)
  = Threw t realm1 ->
  callWithLocation ref func ast calleeAst strictCode env st realm
  = Threw t (withNextContextLocation (nextContextLocation realm) realm1).
Proof.
  intros Hcall. rewrite callWithLocation_outcome. unfold callAndCompose.
  rewrite (bind_threw _ _ _ _ _ Hcall). reflexivity.
Qed.

(** X6. The two ways out of the [try] block of lines 72-90 that are not a
    normal result.  When the call returns an abrupt completion, the
    evaluator returns it with the call node over all gathered argument
    nodes and all gathered statements, joined with the pending fork by
    [stopEffectCaptureJoinApplyAndReturnCompletion] when one is open; the
    completions are not unbundled or composed and no effect capture is
    started.  When the call throws, the same exception leaves the
    evaluator, and the pending fork is not joined.  On both ways the
    next-context location is put back after everything else. *)
Theorem call_abrupt_exits ref func ast calleeAst strictCode env st realm :
  let started := withNextContextLocation (loc ast) realm in
  let restored := withNextContextLocation (nextContextLocation realm) in
  let residual := callExpression calleeAst (partialArgs st) in
  (forall a realm1,
      EvaluateCall ref func ast (argVals st) strictCode env started
      = Returned (IsCompletion (AbruptCompletion a)) realm1 ->
      callWithLocation ref func ast calleeAst strictCode env st realm
      = match pendingFork (completion st) with
        | None =>
            Returned (IsCompletion (AbruptCompletion a), residual, io st)
              (restored realm1)
        | Some fork =>
            match stopEffectCaptureJoinApplyAndReturnCompletion
                    fork (AbruptCompletion a) realm1 with
            | Returned joined realm2 =>
                Returned (IsCompletion joined, residual, io st) (restored realm2)
            | Threw t realm2 => Threw t (restored realm2)
            end
        end)
  /\ (forall t realm1,
        EvaluateCall ref func ast (argVals st) strictCode env started
        = Threw t realm1 ->
        callWithLocation ref func ast calleeAst strictCode env st realm
        = Threw t (restored realm1)).
Proof.
  cbv zeta. split.
  - intros a realm1. apply callWithLocation_abrupt.
  - intros t realm1. apply callWithLocation_threw.
Qed.

(** X5. An ordinary call of a concrete function whose invocation throws an
    abrupt completion, with no fork pending: the evaluator returns that
    completion as its result, with the call node over the residual nodes of
    the callee and of all arguments and the statements gathered from them,
    from the realm the invocation left with the next-context location put
    back. *)
Theorem throwing_call_returns_completion
    ast strictCode env realm calleeResult calleeAst calleeIO realm1
    ref c realm2 st realm3 thisValue a realm4 :
  partiallyEvaluateCompletion env (callee ast) strictCode realm
  = Returned (calleeResult, calleeAst, calleeIO) realm1 ->
  splitCallee calleeResult = inr (None, ref) ->
  GetValue ref realm1 = Returned (Concrete c) realm2 ->
  evaluateArguments (arguments ast) calleeAst strictCode env
    (mkLoop calleeIO [] [] None) realm2
  = Returned (LoopDone st) realm3 ->
  pendingFork (completion st) = None ->
  let started := withNextContextLocation (loc ast) realm3 in
  isDirectEval ref (Concrete c) started = false ->
  resolveThisValue ref started = inr thisValue ->
  EvaluateDirectCallWithArgList strictCode env ref (Concrete c) thisValue (argVals st)
    (IsInTailPosition started ast) (withCurrentLocation (loc ast) started)
  = Threw (ThrownCompletion (AbruptCompletion a)) realm4 ->
  CallExpression_default ast strictCode env realm
  = Returned
      (IsCompletion (AbruptCompletion a),
       callExpression calleeAst (partialArgs st), io st)
      (withNextContextLocation (nextContextLocation realm3) realm4).
Proof.
  intros Hcallee Hsplit Hfunc Hloop Hfork started Hdirect Hthis Hinvoke.
  assert (Hcall :
    EvaluateCall ref (Concrete c) ast (argVals st) strictCode env started
    = Returned (IsCompletion (AbruptCompletion a)) realm4).
  { rewrite (EvaluateCall_ordinary _ _ _ _ _ _ _ _ Hdirect Hthis).
    rewrite invokeWithThis_outcome, Hinvoke. reflexivity. }
  unfold CallExpression_default.
  rewrite (bind_returned _ _ _ _ _ Hcallee).
  assert (Hrest :
    (let '(completion, ref0) := (@None CompletionOrValue, ref) in
     func0 <- GetValue ref0 ;;
     exit <- evaluateArguments (arguments ast) calleeAst strictCode env
               (mkLoop calleeIO [] [] completion) ;;
     match exit with
     | LoopReturn r => ret r
     | LoopDone st0 =>
         callWithLocation ref0 func0 ast calleeAst strictCode env st0
     end) realm1
    = Returned
        (IsCompletion (AbruptCompletion a),
         callExpression calleeAst (partialArgs st), io st)
        (withNextContextLocation (nextContextLocation realm3) realm4)).
  { cbn beta iota. rewrite (bind_returned _ _ _ _ _ Hfunc).
    rewrite (bind_returned _ _ _ _ _ Hloop).
    rewrite (callWithLocation_abrupt _ _ _ _ _ _ _ _ _ _ Hcall), Hfork.
    reflexivity. }
  destruct calleeResult as [v0 | r | [v0 | a0 | v0 e]]; cbn in Hsplit;
    try discriminate; injection Hsplit as <-; exact Hrest.
Qed.

(** X7. In a direct eval with an argument, whatever [PerformEval] throws
    leaves the evaluator as the same exception, a thrown [Completion]
    included: unlike the invocation of lines 227-233, the call of line 192
    stands in no [try] that would turn it into a returned completion, so no
    residual node is returned for it. *)
Theorem direct_eval_throw_escapes
    ref c ast calleeAst strictCode env st realm evalText rest t realm1 :
  let started := withNextContextLocation (loc ast) realm in
  isDirectEval ref (Concrete c) started = true ->
  argVals st = evalText :: rest ->
  PerformEval evalText strictCode true started = Threw t realm1 ->
  callWithLocation ref (Concrete c) ast calleeAst strictCode env st realm
  = Threw t (withNextContextLocation (nextContextLocation realm) realm1).
Proof.
  intros started Hdirect Hargs Heval.
  apply callWithLocation_threw. fold started.
  rewrite EvaluateCall_Concrete.
  unfold EvaluateCallConcrete, bind, readRealm, throwIfNotConcrete, ret.
  rewrite Hdirect, Hargs. exact Heval.
Qed.

(** X10. A normal completion object where a value is expected is a failed
    [invariant], not a result.  When the callee evaluates to a
    [SimpleNormalCompletion], the evaluator throws at line 41 from the
    realm the callee evaluation left.  When an argument does, after
    arguments that were gathered, the loop throws at line 66 from the realm
    that argument's evaluation left, and the arguments after it are not
    looked at. *)
Theorem normal_completion_object_refused strictCode env :
  (forall ast realm v calleeAst calleeIO realm1,
      partiallyEvaluateCompletion env (callee ast) strictCode realm
      = Returned (CalleeCompletion (SimpleNormalCompletion v), calleeAst, calleeIO)
          realm1 ->
      CallExpression_default ast strictCode env realm
      = Threw (ThrownError InvariantViolation) realm1)
  /\ (forall pre arg rest calleeAst st realm st' realm1 v argAst argIO realm2,
        evaluateArguments pre calleeAst strictCode env st realm
        = Returned (LoopDone st') realm1 ->
        partiallyEvaluateCompletionDeref env arg strictCode realm1
        = Returned (IsCompletion (SimpleNormalCompletion v), argAst, argIO) realm2 ->
        evaluateArguments (pre ++ arg :: rest) calleeAst strictCode env st realm
        = Threw (ThrownError InvariantViolation) realm2).
Proof.
  split.
  - intros ast realm v calleeAst calleeIO realm1 Hcallee.
    unfold CallExpression_default.
    rewrite (bind_returned _ _ _ _ _ Hcallee). reflexivity.
  - intros pre arg rest calleeAst st realm st' realm1 v argAst argIO realm2
      Hpre Harg.
    rewrite evaluateArguments_app, (bind_returned _ _ _ _ _ Hpre).
    cbn [evaluateArguments]. rewrite (bind_returned _ _ _ _ _ Harg).
    reflexivity.
Qed.

(** ** Residual code in argument order *)

(** X12. The loop over two lists of arguments in a row is the loop over the
    first followed, unless it returned, by the loop over the second, which
    starts from the realm and from the nodes, values, statements and
    pending completion the first one left: arguments are evaluated left to
    right and what is gathered only grows. *)
Theorem arguments_evaluated_in_sequence pre suf calleeAst strictCode env st realm :
  evaluateArguments (pre ++ suf) calleeAst strictCode env st realm
  = match evaluateArguments pre calleeAst strictCode env st realm with
    | Returned (LoopDone st') realm' =>
        evaluateArguments suf calleeAst strictCode env st' realm'
    | Returned (LoopReturn r) realm' => Returned (LoopReturn r) realm'
    | Threw t realm' => Threw t realm'
    end.
Proof.
  rewrite evaluateArguments_app. unfold bind.
  destruct (evaluateArguments pre calleeAst strictCode env st realm)
    as [[r | st'] realm' | t realm']; reflexivity.
Qed.

Lemma evaluateArguments_plain strictCode env args realm results realm' :
  argumentsPlain strictCode env args realm results realm' ->
  forall calleeAst st,
    evaluateArguments args calleeAst strictCode env st realm
    = Returned
        (LoopDone (mkLoop (io st ++ statementsOf results)
                          (partialArgs st ++ nodesOf results)
                          (argVals st ++ valuesOf results) (completion st)))
        realm'.
Proof.
  induction 1 as [realm | arg rest realm v argAst argIO realm1 results realm2 Harg _ IH];
    intros calleeAst st.
  - destruct st. cbn. rewrite !app_nil_r. reflexivity.
  - cbn [evaluateArguments]. rewrite (bind_returned _ _ _ _ _ Harg).
    cbn beta iota. rewrite IH. cbn [io partialArgs argVals completion].
    unfold statementsOf, nodesOf, valuesOf. cbn [map List.concat fst snd].
    rewrite <- !app_assoc. reflexivity.
Qed.

(** X11. A call whose callee opens no fork and whose arguments all evaluate
    to plain values, each with whatever residual node and statements, and
    whose call returns a value: the evaluator returns that value, the call
    node over the callee's residual node and the arguments' residual nodes
    in argument order, and the callee's statements followed by each
    argument's statements in argument order; the function receives the
    argument values in argument order. *)
Theorem residual_code_in_argument_order
    (Hjoin : join_passes_plain_values)
    ast strictCode env realm calleeResult calleeAst calleeIO ref realm1
    func realm2 results realm3 v realm4 :
  partiallyEvaluateCompletion env (callee ast) strictCode realm
  = Returned (calleeResult, calleeAst, calleeIO) realm1 ->
  splitCallee calleeResult = inr (None, ref) ->
  GetValue ref realm1 = Returned func realm2 ->
  argumentsPlain strictCode env (arguments ast) realm2 results realm3 ->
  EvaluateCall ref func ast (valuesOf results) strictCode env
    (withNextContextLocation (loc ast) realm3)
  = Returned (IsValue v) realm4 ->
  CallExpression_default ast strictCode env realm
  = Returned
      (IsValue v, callExpression calleeAst (nodesOf results),
       calleeIO ++ statementsOf results)
      (withNextContextLocation (nextContextLocation realm3) realm4).
Proof.
  intros Hcallee Hsplit Hfunc Hargs Hcall.
  unfold CallExpression_default.
  rewrite (bind_returned _ _ _ _ _ Hcallee).
  assert (Hrest :
    (let '(completion, ref0) := (@None CompletionOrValue, ref) in
     func0 <- GetValue ref0 ;;
     exit <- evaluateArguments (arguments ast) calleeAst strictCode env
               (mkLoop calleeIO [] [] completion) ;;
     match exit with
     | LoopReturn r => ret r
     | LoopDone st0 =>
         callWithLocation ref0 func0 ast calleeAst strictCode env st0
     end) realm1
    = Returned
        (IsValue v, callExpression calleeAst (nodesOf results),
         calleeIO ++ statementsOf results)
        (withNextContextLocation (nextContextLocation realm3) realm4)).
  { cbn beta iota. rewrite (bind_returned _ _ _ _ _ Hfunc).
    rewrite (bind_returned _ _ _ _ _
               (evaluateArguments_plain _ _ _ _ _ _ Hargs calleeAst
                  (mkLoop calleeIO [] [] None))).
    cbn [io partialArgs argVals completion app].
    rewrite callWithLocation_outcome.
    rewrite (callAndCompose_plain_value Hjoin ref func ast calleeAst
               strictCode env
               (mkLoop (calleeIO ++ statementsOf results) (nodesOf results)
                       (valuesOf results) None)
               (withNextContextLocation (loc ast) realm3) v realm4 eq_refl Hcall).
    reflexivity. }
  destruct calleeResult as [v0 | r | [v0 | a0 | v0 e]]; cbn in Hsplit;
    try discriminate; injection Hsplit as <-; exact Hrest.
Qed.

End FurtherProperties.

(** * The statements on the small realm *)

Section Examples.

#[local] Existing Instance Demo.demoCarriers.
#[local] Existing Instance Demo.demoCollaborators.
Import Demo.

Lemma demo_join_passes_plain_values : join_passes_plain_values.
Proof. split; intros; reflexivity. Qed.

Lemma demo_steps_keep_location : steps_before_call_keep_location.
Proof.
  unfold steps_before_call_keep_location, keepsNextContextLocation.
  split; [| split; [| split; [| split]]].
  - intros env [name | n | [object |] property | f args] strictCode realm; reflexivity.
  - intros env [name | n | [object |] property | f args] strictCode realm; cbn;
      try reflexivity.
    destruct (lookup env name); reflexivity.
  - intros [v | [[bindings | object] name | base name]] realm; cbn; try reflexivity.
    + destruct (lookup bindings name); reflexivity.
    + destruct (globalValue name); reflexivity.
    + destruct (globalValue name); reflexivity.
  - intros fork abrupt realm. reflexivity.
  - intros [[v | a | v e] |] [[v' | a' | v' e'] |] w realm; reflexivity.
Qed.

(** C7 on the small realm: [o.self()] is invoked with the object as this,
    [self()] inside [with (o)] with the object of the record, [self()] in a
    declarative record and a call of the function value itself with
    [undefined]. *)
Lemma EvaluateCall_this_value_example :
  EvaluateCall (AReference (PropertyReference 3 "self")) (function "self")
    (callOf (MemberExpression (Some 3) "self") []) [] false [] startRealm
  = Returned (IsValue (Concrete (DObject 3))) (realmWith (Some 7) ["self"])
  /\ EvaluateCall (AReference (IdentifierReference (ObjectRecord 5) "self"))
       (function "self") (callOf (Identifier "self") []) [] false [] startRealm
     = Returned (IsValue (Concrete (DObject 5))) (realmWith (Some 7) ["self"])
  /\ EvaluateCall (AValue (function "self")) (function "self")
       (callOf (Identifier "self") []) [] false [] startRealm
     = Returned (IsValue (Concrete DUndefined)) (realmWith (Some 7) ["self"]).
Proof.
  split; [| split].
  - exact (proj1 (EvaluateCall_this_value (DFunction "self")
                    (callOf (MemberExpression (Some 3) "self") []) [] false []
                    startRealm)
             (PropertyReference 3 "self") eq_refl).
  - exact (proj1 (proj2 (EvaluateCall_this_value (DFunction "self")
                           (callOf (Identifier "self") []) [] false [] startRealm))
             (IdentifierReference (ObjectRecord 5) "self") (ObjectRecord 5)
             eq_refl eq_refl eq_refl).
  - exact (proj2 (proj2 (EvaluateCall_this_value (DFunction "self")
                           (callOf (Identifier "self") []) [] false [] startRealm))
             (function "self")).
Defined.

(** C9 on the small realm: the throw completion of [fail(1)] is returned,
    the host failure of [crash()] is thrown on. *)
Lemma EvaluateCall_propagates_thrown_completions_example :
  EvaluateCall (AValue (function "fail")) (function "fail")
    (callOf (Identifier "fail") [NumericLiteral 1]) [number 1] false [] startRealm
  = Returned (IsCompletion (AbruptCompletion (ThrowCompletion (number 1))))
      (realmWith (Some 7) ["fail"])
  /\ EvaluateCall (AValue (function "crash")) (function "crash")
       (callOf (Identifier "crash") []) [] false [] startRealm
     = Threw (ThrownError (OtherError "FatalError")) (realmWith (Some 7) ["crash"]).
Proof.
  split.
  - exact (proj1 (EvaluateCall_propagates_thrown_completions
                    (AValue (function "fail")) (DFunction "fail")
                    (callOf (Identifier "fail") [NumericLiteral 1]) [number 1]
                    false [] startRealm (Concrete DUndefined) eq_refl eq_refl)
             (AbruptCompletion (ThrowCompletion (number 1)))
             (realmWith (Some 7) ["fail"]) eq_refl).
  - exact (proj1 (proj2 (EvaluateCall_propagates_thrown_completions
                           (AValue (function "crash")) (DFunction "crash")
                           (callOf (Identifier "crash") []) []
                           false [] startRealm (Concrete DUndefined) eq_refl eq_refl))
             (OtherError "FatalError") (realmWith (Some 7) ["crash"]) eq_refl).
Defined.

(** C5 on the small realm: the call of the modelled function logs no call
    and gives an abstract value of the top type, and so does the call of
    another abstract function with other arguments. *)
Lemma EvaluateCall_abstract_function_example :
  EvaluateCall (AReference (IdentifierReference (DeclarativeRecord []) "model"))
    (AbstractValue None TyFunction [])
    (callOf (Identifier "model") [NumericLiteral 1]) [number 1] false [] startRealm
  = Returned (IsValue (AbstractValue None TyValue [])) startRealm
  /\ EvaluateCall (AValue (number 0))
       (AbstractValue (Some "widened") TyFunction [number 3])
       (callOf (Identifier "other") []) [] true [] startRealm
     = EvaluateCall (AReference (IdentifierReference (DeclarativeRecord []) "model"))
         (AbstractValue None TyFunction [])
         (callOf (Identifier "model") [NumericLiteral 1]) [number 1] false []
         startRealm.
Proof.
  split.
  - exact (proj1 (EvaluateCall_abstract_function
                    (AReference (IdentifierReference (DeclarativeRecord []) "model"))
                    None TyFunction []
                    (callOf (Identifier "model") [NumericLiteral 1]) [number 1]
                    false [] startRealm eq_refl eq_refl)).
  - exact (proj2 (EvaluateCall_abstract_function
                    (AReference (IdentifierReference (DeclarativeRecord []) "model"))
                    None TyFunction []
                    (callOf (Identifier "model") [NumericLiteral 1]) [number 1]
                    false [] startRealm eq_refl eq_refl)
             (AValue (number 0)) (Some "widened") TyFunction [number 3]
             (callOf (Identifier "other") []) [] true [] eq_refl eq_refl).
Defined.

(** C5 as first stated does not hold: the call [model(1)] returns the
    abstract value of type [Value]; whatever way of reading a declared
    return type gives this call another type than [Value], the result does
    not have it. *)
Lemma declared_return_type_not_used :
  EvaluateCall (AReference (IdentifierReference (DeclarativeRecord []) "model"))
    (AbstractValue None TyFunction [])
    (callOf (Identifier "model") [NumericLiteral 1]) [number 1] false [] startRealm
  = Returned (IsValue (AbstractValue None TyValue [])) startRealm
  /\ ~ (exists declared,
          declared (AbstractValue None TyFunction [])
            (callOf (Identifier "model") [NumericLiteral 1]) <> TyValue
          /\ returnsDeclaredType declared).
Proof.
  split; [reflexivity |].
  intros (declared & Hother & Hclaim).
  specialize (Hclaim
    (AReference (IdentifierReference (DeclarativeRecord []) "model"))
    None TyFunction [] (callOf (Identifier "model") [NumericLiteral 1])
    [number 1] false [] startRealm eq_refl eq_refl).
  cbn in Hclaim. unfold bind, ret in Hclaim.
  injection Hclaim as Htype. apply Hother. symmetry. exact Htype.
Qed.

(** C4 on the small realm: [eval()] is undefined, [eval(1)] is what
    [PerformEval] makes of 1, and [eval()] where the name is bound to
    [self] is a call of [self]. *)
Lemma EvaluateCall_direct_eval_example :
  EvaluateCall (AReference (IdentifierReference (DeclarativeRecord []) "eval"))
    (function "eval") (callOf (Identifier "eval") []) [] false [] startRealm
  = Returned (IsValue (Concrete DUndefined)) startRealm
  /\ EvaluateCall (AReference (IdentifierReference (DeclarativeRecord []) "eval"))
       (function "eval") (callOf (Identifier "eval") [NumericLiteral 1])
       [number 1] false [] startRealm
     = Returned (IsValue (number 1)) startRealm
  /\ EvaluateCall
       (AReference
          (IdentifierReference (DeclarativeRecord [("eval", DFunction "self")]) "eval"))
       (function "self") (callOf (Identifier "eval") []) [] false
       [("eval", DFunction "self")] startRealm
     = Returned (IsValue (Concrete DUndefined)) (realmWith (Some 7) ["self"]).
Proof.
  split; [| split].
  - exact (proj1 (proj1 (EvaluateCall_direct_eval
                           (IdentifierReference (DeclarativeRecord []) "eval")
                           (DFunction "eval") (callOf (Identifier "eval") [])
                           false [] startRealm eq_refl eq_refl) eq_refl)).
  - exact (proj2 (proj1 (EvaluateCall_direct_eval
                           (IdentifierReference (DeclarativeRecord []) "eval")
                           (DFunction "eval")
                           (callOf (Identifier "eval") [NumericLiteral 1])
                           false [] startRealm eq_refl eq_refl) eq_refl)
             (number 1) []).
  - exact (proj2 (EvaluateCall_direct_eval
                    (IdentifierReference
                       (DeclarativeRecord [("eval", DFunction "self")]) "eval")
                    (DFunction "self") (callOf (Identifier "eval") [])
                    false [("eval", DFunction "self")] startRealm eq_refl eq_refl)
             eq_refl
             (DeclarativeRecord [("eval", DFunction "self")]) [] eq_refl).
Defined.

(** C10 on the small realm: [o.m()] where [m] is [self] on either side of
    the condition gives [undefined] on both sides, not the object [o]. *)
Lemma conditional_arms_called_with_undefined_this_example :
  EvaluateCall (AReference (PropertyReference 3 "m"))
    (AbstractValue (Some "conditional") TyFunction
       [theCondition; function "self"; function "self"])
    (callOf (MemberExpression (Some 3) "m") []) [] false [] startRealm
  = Returned
      (IsValue
         (AbstractValue (Some "conditional") TyValue
            [theCondition; Concrete DUndefined; Concrete DUndefined]))
      (realmWith None ["self"; "self"]).
Proof.
  exact (proj2 (conditional_arms_called_with_undefined_this
                  TyFunction theCondition (function "self") (function "self") []
                  (callOf (MemberExpression (Some 3) "m") []) [] false []
                  eq_refl eq_refl)
           (DFunction "self") (DFunction "self") eq_refl eq_refl
           (AReference (PropertyReference 3 "m")) startRealm).
Defined.





(** C3 on the small realm: [null.f(nope)] returns the TypeError of the
    callee and looks at no argument; [inc(1, nope, inc)] returns the
    ReferenceError of [nope] with the node [inc(1, nope)], and [inc] is not
    called. *)
Lemma abrupt_before_call_short_circuits_example :
  CallExpression_default
    (callOf (MemberExpression None "f") [Identifier "nope"]) false [] startRealm
  = Returned
      (IsCompletion (AbruptCompletion typeError), MemberExpression None "f", [])
      startRealm
  /\ CallExpression_default
       (callOf (Identifier "inc")
          ([NumericLiteral 1] ++ Identifier "nope" :: [Identifier "inc"]))
       false [] startRealm
     = Returned
         (IsCompletion (AbruptCompletion referenceError),
          Call (Identifier "inc") [NumericLiteral 1; Identifier "nope"], [])
         startRealm.
Proof.
  split.
  - exact (proj1 (abrupt_before_call_short_circuits false [])
             (callOf (MemberExpression None "f") [Identifier "nope"]) startRealm
             typeError (MemberExpression None "f") [] startRealm eq_refl).
  - exact (proj2
             (proj2 (abrupt_before_call_short_circuits false [])
                (Identifier "inc") [NumericLiteral 1] (Identifier "nope")
                [Identifier "inc"] (Some 7) startRealm
                (CalleeReference (IdentifierReference (DeclarativeRecord []) "inc"))
                (Identifier "inc") [] startRealm None
                (AReference (IdentifierReference (DeclarativeRecord []) "inc"))
                (function "inc") startRealm
                (mkLoop [] [NumericLiteral 1] [number 1] None) startRealm
                referenceError (Identifier "nope") [] startRealm
                eq_refl eq_refl eq_refl eq_refl eq_refl)).
Defined.

(** C1 on the small realm: [inc(1)] returns 2, the value of the invocation,
    with the node [inc(1)] and no statement. *)
Lemma concrete_call_is_direct_invocation_example :
  CallExpression_default (callOf (Identifier "inc") [NumericLiteral 1])
    false [] startRealm
  = Returned
      (IsValue (number 2), Call (Identifier "inc") [NumericLiteral 1], [])
      (realmWith (Some 7) ["inc"]).
Proof.
  refine (proj2
            (concrete_call_is_direct_invocation demo_join_passes_plain_values
               (callOf (Identifier "inc") [NumericLiteral 1]) false [] startRealm
               (CalleeReference (IdentifierReference (DeclarativeRecord []) "inc"))
               (AReference (IdentifierReference (DeclarativeRecord []) "inc"))
               startRealm (DFunction "inc") startRealm [number 1] startRealm
               eq_refl eq_refl eq_refl _)
            (Concrete DUndefined) (number 2)
            (mkRealm (Some 7) (Some 7)
               (mkIntrinsics (Concrete DUndefined) (function "eval")) ["inc"])
            eq_refl eq_refl eq_refl).
  exact (@fold_cons demoCarriers demoCollaborators false nil
           (NumericLiteral 1) nil startRealm (number 1) startRealm nil startRealm
           eq_refl (@fold_nil demoCarriers demoCollaborators false nil startRealm)).
Defined.

(** C8 on the small realm: after [inc(1)] the next-context location is the
    one the realm started with. *)
Lemma next_context_location_restored_example :
  nextContextLocation
    (finalState
       (CallExpression_default (callOf (Identifier "inc") [NumericLiteral 1])
          false [] startRealm))
  = nextContextLocation startRealm.
Proof.
  exact (proj1 (proj2 next_context_location_restored) demo_steps_keep_location
           (callOf (Identifier "inc") [NumericLiteral 1]) false [] startRealm).
Defined.

(** C8 as first stated does not hold: [inc(1)], called at line 7 in a realm
    with no current location, returns 2 and leaves the realm with line 7 as
    its current location.  No collaborator of the small realm writes a
    location; the write is that of line 228. *)
Lemma current_location_not_restored :
  CallExpression_default (callOf (Identifier "inc") [NumericLiteral 1])
    false [] startRealm
  = Returned
      (IsValue (number 2), Call (Identifier "inc") [NumericLiteral 1], [])
      (realmWith (Some 7) ["inc"])
  /\ currentLocation startRealm = None
  /\ currentLocation
       (finalState
          (CallExpression_default (callOf (Identifier "inc") [NumericLiteral 1])
             false [] startRealm))
     <> currentLocation startRealm.
Proof.
  split; [reflexivity | split; [reflexivity |]].
  cbn. discriminate.
Qed.

End Examples.

(** * The further properties on the small realm and its variants *)

Section FurtherExamples.

#[local] Existing Instance Demo.demoCarriers.
#[local] Existing Instance Demo.demoCollaborators.
Import Demo Variants.

(** X1 on the small realm: what [pick(1)] returns is a value. *)
Lemma dispatcher_returns_value_or_abrupt_example :
  let r :=
    IsValue (AbstractValue (Some "conditional") TyValue
               [theCondition; number 2; number 0]) in
  (exists v, r = IsValue v) \/ (exists a, r = IsCompletion (AbruptCompletion a)).
Proof.
  exact (dispatcher_returns_value_or_abrupt
           [theCondition; function "inc"; function "dec"]
           (callOf (Identifier "pick") [NumericLiteral 1]) [number 1] false []
           startRealm _ (realmWith None ["inc"; "dec"]) eq_refl).
Defined.

(** X2 on the variant that hands the fork back: with [inc] on one side and
    [fail] on the other the join is possibly normal, the call of [inc] is
    applied to the log, and the dispatcher throws. *)
Lemma dispatcher_refuses_possibly_normal_example :
  @callBothFunctionsAndJoinTheirEffects demoCarriers forkKeepingCollaborators
    [theCondition; function "inc"; function "fail"]
    (callOf (Identifier "pick") [NumericLiteral 1]) [number 1] false [] startRealm
  = Threw (ThrownError InvariantViolation) (realmWith None ["inc"]).
Proof.
  eapply (@dispatcher_refuses_possibly_normal demoCarriers forkKeepingCollaborators);
    reflexivity.
Defined.

(** X3 on the small realm: [inc(1, nope, inc)] returns a call node over the
    callee and two of the three arguments. *)
Lemma residual_shape_example :
  exists nodes extra,
    Call (Identifier "inc") [NumericLiteral 1; Identifier "nope"]
    = Call (Identifier "inc") nodes
    /\ List.length nodes <= 3
    /\ @nil DemoExpression = [] ++ extra.
Proof.
  exact (residual_shape
           (callOf (Identifier "inc")
              [NumericLiteral 1; Identifier "nope"; Identifier "inc"])
           false [] startRealm
           (CalleeReference (IdentifierReference (DeclarativeRecord []) "inc"))
           (Identifier "inc") [] startRealm
           (IsCompletion (AbruptCompletion referenceError))
           (Call (Identifier "inc") [NumericLiteral 1; Identifier "nope"]) []
           startRealm eq_refl eq_refl).
Defined.

(** X4 on the small realm: the loop over [1, 2] gathers two values and two
    nodes. *)
Lemma arguments_one_value_each_example :
  List.length [number 1; number 2] = 2
  /\ List.length [NumericLiteral 1; NumericLiteral 2] = 2.
Proof.
  exact (arguments_one_value_each
           [NumericLiteral 1; NumericLiteral 2] (Identifier "inc") [] None false []
           startRealm
           (mkLoop [] [NumericLiteral 1; NumericLiteral 2] [number 1; number 2] None)
           startRealm eq_refl).
Defined.

(** X5 on the small realm: [fail(1)] returns the completion that [fail]
    throws, with the node [fail(1)]. *)
Lemma throwing_call_returns_completion_example :
  CallExpression_default (callOf (Identifier "fail") [NumericLiteral 1])
    false [] startRealm
  = Returned
      (IsCompletion (AbruptCompletion (ThrowCompletion (number 1))),
       Call (Identifier "fail") [NumericLiteral 1], [])
      (realmWith (Some 7) ["fail"]).
Proof.
  exact (throwing_call_returns_completion
           (callOf (Identifier "fail") [NumericLiteral 1]) false [] startRealm
           (CalleeReference (IdentifierReference (DeclarativeRecord []) "fail"))
           (Identifier "fail") [] startRealm
           (AReference (IdentifierReference (DeclarativeRecord []) "fail"))
           (DFunction "fail") startRealm
           (mkLoop [] [NumericLiteral 1] [number 1] None) startRealm
           (Concrete DUndefined) (ThrowCompletion (number 1))
           (mkRealm (Some 7) (Some 7)
              (mkIntrinsics (Concrete DUndefined) (function "eval")) ["fail"])
           eq_refl eq_refl eq_refl eq_refl eq_refl eq_refl eq_refl eq_refl).
Defined.

(** X6 on the small realm: with a fork pending, the abrupt completion of
    [fail(1)] is returned through the join; the host failure of [crash()]
    is thrown on. *)
Lemma call_abrupt_exits_example :
  callWithLocation (AValue (function "fail")) (function "fail")
    (callOf (Identifier "fail") [NumericLiteral 1]) (Identifier "fail") false []
    (mkLoop [] [NumericLiteral 1] [number 1]
       (Some (IsCompletion
                (PossiblyNormalCompletion (number 0)
                   (mkEffects (SimpleNormalCompletion (number 0)) [] tt tt tt)))))
    startRealm
  = Returned
      (IsCompletion (AbruptCompletion (ThrowCompletion (number 1))),
       Call (Identifier "fail") [NumericLiteral 1], [])
      (realmWith (Some 7) ["fail"])
  /\ callWithLocation (AValue (function "crash")) (function "crash")
       (callOf (Identifier "crash") []) (Identifier "crash") false []
       (mkLoop [] [] [] None) startRealm
     = Threw (ThrownError (OtherError "FatalError")) (realmWith (Some 7) ["crash"]).
Proof.
  split.
  - exact (proj1 (call_abrupt_exits (AValue (function "fail")) (function "fail")
                    (callOf (Identifier "fail") [NumericLiteral 1])
                    (Identifier "fail") false []
                    (mkLoop [] [NumericLiteral 1] [number 1]
                       (Some (IsCompletion
                                (PossiblyNormalCompletion (number 0)
                                   (mkEffects (SimpleNormalCompletion (number 0))
                                      [] tt tt tt)))))
                    startRealm)
             (ThrowCompletion (number 1))
             (mkRealm (Some 7) (Some 7)
                (mkIntrinsics (Concrete DUndefined) (function "eval")) ["fail"])
             eq_refl).
  - exact (proj2 (call_abrupt_exits (AValue (function "crash")) (function "crash")
                    (callOf (Identifier "crash") []) (Identifier "crash") false []
                    (mkLoop [] [] [] None) startRealm)
             (ThrownError (OtherError "FatalError"))
             (mkRealm (Some 7) (Some 7)
                (mkIntrinsics (Concrete DUndefined) (function "eval")) ["crash"])
             eq_refl).
Defined.

(** X7 on the variant whose [PerformEval] rejects text: the SyntaxError
    completion of [eval("x")] leaves the evaluator as an exception. *)
Lemma direct_eval_throw_escapes_example :
  @callWithLocation demoCarriers rejectingCollaborators
    (AReference (IdentifierReference (DeclarativeRecord []) "eval"))
    (function "eval") (callOf (Identifier "eval") [Identifier "x"])
    (Identifier "eval") false []
    (mkLoop [] [Identifier "x"] [Concrete (DString "x")] None) startRealm
  = Threw (ThrownCompletion (AbruptCompletion syntaxError)) startRealm.
Proof.
  exact (@direct_eval_throw_escapes demoCarriers rejectingCollaborators
           (AReference (IdentifierReference (DeclarativeRecord []) "eval"))
           (DFunction "eval") (callOf (Identifier "eval") [Identifier "x"])
           (Identifier "eval") false []
           (mkLoop [] [Identifier "x"] [Concrete (DString "x")] None) startRealm
           (Concrete (DString "x")) []
           (ThrownCompletion (AbruptCompletion syntaxError))
           (mkRealm None (Some 7)
              (mkIntrinsics (Concrete DUndefined) (function "eval")) [])
           eq_refl eq_refl eq_refl).
Defined.

(** X8 on the small realm: a conditional over numbers is not dispatched. *)
Lemma abstract_non_function_not_called_example :
  EvaluateCall (AValue (number 0))
    (AbstractValue (Some "conditional") TyNumber [theCondition; number 1; number 2])
    (callOf (Identifier "n") []) [] false [] startRealm
  = Threw (ThrownError (OtherError "FatalError")) startRealm.
Proof.
  exact (abstract_non_function_not_called (AValue (number 0))
           (Some "conditional") TyNumber [theCondition; number 1; number 2]
           (callOf (Identifier "n") []) [] false [] startRealm
           (ThrownError (OtherError "FatalError")) startRealm eq_refl eq_refl).
Defined.

(** X9 on the small realm: a conditional with no values, and one whose
    condition is a number, are refused with nothing logged. *)
Lemma malformed_conditional_refused_example :
  (exists e,
      EvaluateCall (AValue (number 0))
        (AbstractValue (Some "conditional") TyFunction [])
        (callOf (Identifier "pick") []) [] false [] startRealm
      = Threw (ThrownError e) startRealm)
  /\ (exists e,
        EvaluateCall (AValue (number 0))
          (AbstractValue (Some "conditional") TyFunction
             [number 1; function "inc"; function "dec"])
          (callOf (Identifier "pick") []) [] false [] startRealm
        = Threw (ThrownError e) startRealm).
Proof.
  split.
  - exact (malformed_conditional_refused (AValue (number 0)) TyFunction []
             (callOf (Identifier "pick") []) [] false [] startRealm eq_refl I).
  - exact (malformed_conditional_refused (AValue (number 0)) TyFunction
             [number 1; function "inc"; function "dec"]
             (callOf (Identifier "pick") []) [] false [] startRealm eq_refl eq_refl).
Defined.

(** X10 on the variant that wraps numbers in completion objects: the callee
    [1] and the second argument of [inc(x, 2, nope)] both fail the
    [invariant]. *)
Lemma normal_completion_object_refused_example :
  @CallExpression_default demoCarriers wrappingCollaborators
    (callOf (NumericLiteral 1) []) false [] startRealm
  = Threw (ThrownError InvariantViolation) startRealm
  /\ @evaluateArguments demoCarriers wrappingCollaborators
       ([Identifier "x"] ++ NumericLiteral 2 :: [Identifier "nope"])
       (Identifier "inc") false [("x", DNumber 5)] (mkLoop [] [] [] None) startRealm
     = Threw (ThrownError InvariantViolation) startRealm.
Proof.
  split.
  - exact (proj1 (@normal_completion_object_refused demoCarriers
                    wrappingCollaborators false [])
             (callOf (NumericLiteral 1) []) startRealm (number 1)
             (NumericLiteral 1) [] startRealm eq_refl).
  - exact (proj2 (@normal_completion_object_refused demoCarriers
                    wrappingCollaborators false [("x", DNumber 5)])
             [Identifier "x"] (NumericLiteral 2) [Identifier "nope"]
             (Identifier "inc") (mkLoop [] [] [] None) startRealm
             (mkLoop [] [Identifier "x"] [number 5] None) startRealm
             (number 2) (NumericLiteral 2) [] startRealm eq_refl eq_refl).
Defined.

(** X11 on the small realm: in [inc(f(1), 2)] the first argument is not
    folded and leaves itself as a residual statement; the result carries
    that statement and both argument nodes in order. *)
Lemma residual_code_in_argument_order_example :
  CallExpression_default
    (callOf (Identifier "inc")
       [Call (Identifier "f") [NumericLiteral 1]; NumericLiteral 2])
    false [] startRealm
  = Returned
      (IsValue (Concrete DUndefined),
       Call (Identifier "inc")
         [Call (Identifier "f") [NumericLiteral 1]; NumericLiteral 2],
       [Call (Identifier "f") [NumericLiteral 1]])
      (realmWith (Some 7) ["inc"]).
Proof.
  refine (residual_code_in_argument_order demo_join_passes_plain_values
            (callOf (Identifier "inc")
               [Call (Identifier "f") [NumericLiteral 1]; NumericLiteral 2])
            false [] startRealm
            (CalleeReference (IdentifierReference (DeclarativeRecord []) "inc"))
            (Identifier "inc") []
            (AReference (IdentifierReference (DeclarativeRecord []) "inc"))
            startRealm (function "inc") startRealm
            [(AbstractValue None TyValue [], Call (Identifier "f") [NumericLiteral 1],
              [Call (Identifier "f") [NumericLiteral 1]]);
             (number 2, NumericLiteral 2, [])]
            startRealm (Concrete DUndefined)
            (mkRealm (Some 7) (Some 7)
               (mkIntrinsics (Concrete DUndefined) (function "eval")) ["inc"])
            eq_refl eq_refl eq_refl _ eq_refl).
  exact (@plain_cons demoCarriers demoCollaborators false nil
           (Call (Identifier "f") [NumericLiteral 1]) [NumericLiteral 2]
           startRealm (AbstractValue None TyValue [])
           (Call (Identifier "f") [NumericLiteral 1])
           [Call (Identifier "f") [NumericLiteral 1]] startRealm
           [(number 2, NumericLiteral 2, [])] startRealm eq_refl
           (@plain_cons demoCarriers demoCollaborators false nil
              (NumericLiteral 2) [] startRealm (number 2) (NumericLiteral 2) []
              startRealm [] startRealm eq_refl
              (@plain_nil demoCarriers demoCollaborators false nil startRealm))).
Defined.

(** X12 on the small realm: the loop over [1] and then [nope, inc] returns
    at [nope], as the loop over the three arguments does. *)
Lemma arguments_evaluated_in_sequence_example :
  evaluateArguments ([NumericLiteral 1] ++ [Identifier "nope"; Identifier "inc"])
    (Identifier "inc") false [] (mkLoop [] [] [] None) startRealm
  = evaluateArguments [Identifier "nope"; Identifier "inc"]
      (Identifier "inc") false []
      (mkLoop [] [NumericLiteral 1] [number 1] None) startRealm.
Proof.
  exact (arguments_evaluated_in_sequence [NumericLiteral 1]
           [Identifier "nope"; Identifier "inc"] (Identifier "inc") false []
           (mkLoop [] [] [] None) startRealm).
Defined.

End FurtherExamples.
